(** * udpz: the command layer (cmd/root.go) and the scanning engine's contract

    The first part embeds [cmd/root.go]: the package-level flag variables,
    the flag registration of [init], and the body of [rootCmd.RunE] as a
    program in a small trace-and-exit monad.  The second part models the
    pieces of package [scan] that the command layer drives. *)

From Stdlib Require Import ZArith NArith List String Ascii Bool Lia Sorted Permutation.
From stdpp Require Import gmap strings list pretty sorting.

Local Open Scope string_scope.
Local Open Scope list_scope.

(** ** Package-level variables *)

(** Go's [uint] flag variables are kept as [N]; they are only compared,
    converted and multiplied, and the two conversions below write out
    the wrap-around of the target type. *)
Record Config := mkConfig {
  hostConcurrency : N;
  portConcurrency : N;
  timeoutMs : N;
  retransmissions : N;
  scanAllAddresses : bool;
  quiet : bool;
  silent : bool;
  info : bool;
  debug : bool;
  trace : bool;
  outputPath : string;
  logPath : string;
  outputFormat : string;
  logFormat : string;
  outputAppend : bool;
  socks5Address : string;
  socks5User : string;
  socks5Password : string;
  socks5Timeout : N
}.

(** The initial values of the [var ( ... )] block. *)
Definition defaults : Config := {|
  hostConcurrency := 10;
  portConcurrency := 50;
  timeoutMs := 3000;
  retransmissions := 2;
  scanAllAddresses := true;
  quiet := false;
  silent := false;
  info := true;
  debug := false;
  trace := false;
  outputPath := "";
  logPath := "";
  outputFormat := "auto";
  logFormat := "auto";
  outputAppend := true;
  socks5Address := "";
  socks5User := "";
  socks5Password := "";
  socks5Timeout := 3000
|}.

(** Assignments to single variables. *)
Definition set_outputPath (v : string) (g : Config) : Config :=
  let (hc, pc, t, r, al, q, s, i, d, tr, _, lp, f, lf, oa, sa, su, sp, st) := g in
  mkConfig hc pc t r al q s i d tr v lp f lf oa sa su sp st.
Definition set_logPath (v : string) (g : Config) : Config :=
  let (hc, pc, t, r, al, q, s, i, d, tr, op, _, f, lf, oa, sa, su, sp, st) := g in
  mkConfig hc pc t r al q s i d tr op v f lf oa sa su sp st.
Definition set_outputAppend (v : bool) (g : Config) : Config :=
  let (hc, pc, t, r, al, q, s, i, d, tr, op, lp, f, lf, _, sa, su, sp, st) := g in
  mkConfig hc pc t r al q s i d tr op lp f lf v sa su sp st.
Definition set_outputFormat (v : string) (g : Config) : Config :=
  let (hc, pc, t, r, al, q, s, i, d, tr, op, lp, _, lf, oa, sa, su, sp, st) := g in
  mkConfig hc pc t r al q s i d tr op lp v lf oa sa su sp st.
Definition set_logFormat (v : string) (g : Config) : Config :=
  let (hc, pc, t, r, al, q, s, i, d, tr, op, lp, f, _, oa, sa, su, sp, st) := g in
  mkConfig hc pc t r al q s i d tr op lp f v oa sa su sp st.
Definition set_hostConcurrency (v : N) (g : Config) : Config :=
  let (_, pc, t, r, al, q, s, i, d, tr, op, lp, f, lf, oa, sa, su, sp, st) := g in
  mkConfig v pc t r al q s i d tr op lp f lf oa sa su sp st.
Definition set_portConcurrency (v : N) (g : Config) : Config :=
  let (hc, _, t, r, al, q, s, i, d, tr, op, lp, f, lf, oa, sa, su, sp, st) := g in
  mkConfig hc v t r al q s i d tr op lp f lf oa sa su sp st.
Definition set_retransmissions (v : N) (g : Config) : Config :=
  let (hc, pc, t, _, al, q, s, i, d, tr, op, lp, f, lf, oa, sa, su, sp, st) := g in
  mkConfig hc pc t v al q s i d tr op lp f lf oa sa su sp st.
Definition set_timeoutMs (v : N) (g : Config) : Config :=
  let (hc, pc, _, r, al, q, s, i, d, tr, op, lp, f, lf, oa, sa, su, sp, st) := g in
  mkConfig hc pc v r al q s i d tr op lp f lf oa sa su sp st.
Definition set_scanAllAddresses (v : bool) (g : Config) : Config :=
  let (hc, pc, t, r, _, q, s, i, d, tr, op, lp, f, lf, oa, sa, su, sp, st) := g in
  mkConfig hc pc t r v q s i d tr op lp f lf oa sa su sp st.
Definition set_debug (v : bool) (g : Config) : Config :=
  let (hc, pc, t, r, al, q, s, i, _, tr, op, lp, f, lf, oa, sa, su, sp, st) := g in
  mkConfig hc pc t r al q s i v tr op lp f lf oa sa su sp st.
Definition set_trace (v : bool) (g : Config) : Config :=
  let (hc, pc, t, r, al, q, s, i, d, _, op, lp, f, lf, oa, sa, su, sp, st) := g in
  mkConfig hc pc t r al q s i d v op lp f lf oa sa su sp st.
Definition set_quiet (v : bool) (g : Config) : Config :=
  let (hc, pc, t, r, al, _, s, i, d, tr, op, lp, f, lf, oa, sa, su, sp, st) := g in
  mkConfig hc pc t r al v s i d tr op lp f lf oa sa su sp st.
Definition set_silent (v : bool) (g : Config) : Config :=
  let (hc, pc, t, r, al, q, _, i, d, tr, op, lp, f, lf, oa, sa, su, sp, st) := g in
  mkConfig hc pc t r al q v i d tr op lp f lf oa sa su sp st.

(** The two constraint tables. *)
Definition supportedLogFormats : gmap string bool :=
  list_to_map [("json", true); ("jsonl", true); ("pretty", true); ("auto", true)].

Definition supportedOutputFormats : gmap string bool :=
  list_to_map [("text", true); ("txt", true); ("yaml", true); ("yml", true);
               ("json", true); ("jsonl", true); ("csv", true); ("tsv", true);
               ("pretty", true); ("auto", true)].

(** [sup, ok := m[k]; !ok || !sup] is the rejection test; this is its
    negation. *)
Definition supported (m : gmap string bool) (k : string) : bool :=
  match m !! k with
  | Some sup => sup
  | None => false
  end.

(** ** Library functions the command uses *)

(** [strings.ToLower] on ASCII strings, where it moves the letters A to Z
    to a to z and nothing else.  On a string with a byte above 127 Go
    decodes runes, lowers them by the Unicode tables and replaces invalid
    bytes, which is not modelled: there the function below only keeps
    those bytes.  A format the tables accept is ASCII (see
    [accepted_format_is_ascii]), so every run that passes validation
    computes with the exact value; what is stated of the lowered text of
    a rejected format assumes [is_ascii]. *)
Definition lower_byte (c : ascii) : ascii :=
  let n := N_of_ascii c in
  if (65 <=? n)%N && (n <=? 90)%N then ascii_of_N (n + 32) else c.

Fixpoint ToLower (s : string) : string :=
  match s with
  | EmptyString => EmptyString
  | String c s' => String (lower_byte c) (ToLower s')
  end.

(** The strings on which [ToLower] is Go's function: no byte above
    127. *)
Fixpoint is_ascii (s : string) : bool :=
  match s with
  | EmptyString => true
  | String c s' => (N_of_ascii c <? 128)%N && is_ascii s'
  end.

(** [os.O_WRONLY], [os.O_CREATE], [os.O_APPEND] (Linux values). *)
Definition O_WRONLY : Z := 1.
Definition O_CREATE : Z := 64.
Definition O_APPEND : Z := 1024.

(** Conversion of a [uint] to a 64-bit signed integer type ([int],
    [time.Duration]) and the signed product, both modulo 2^64. *)
Definition wrap_int64 (z : Z) : Z := (z + 2 ^ 63) mod 2 ^ 64 - 2 ^ 63.

Definition Millisecond : Z := 1000000.

(** [time.Duration(ms) * time.Millisecond], in nanoseconds. *)
Definition Duration_of_ms (ms : N) : Z :=
  wrap_int64 (wrap_int64 (Z.of_N ms) * Millisecond).

(** [int(u)]. *)
Definition int_of_uint (u : N) : Z := wrap_int64 (Z.of_N u).

(** [cobra.MinimumNArgs(n)]: the positional-argument validator. *)
Definition MinimumNArgs (n : nat) (args : list string) : option string :=
  if (length args <? n)%nat
  then Some ("requires at least " +:+ pretty n +:+ " arg(s), only received "
             +:+ pretty (length args))
  else None.

(** ** The world outside the command *)

(** Destinations of type [*os.File]. *)
Inductive Stream :=
| Stdout
| Stderr
| File (path : string).

(** The zerolog levels the command names. *)
Inductive Level :=
| TraceLevel
| DebugLevel
| InfoLevel
| ErrorLevel
| FatalLevel
| Disabled.

(** A [zerolog.Logger] as the command builds it: where it writes, and
    whether the writer is wrapped in a [zerolog.ConsoleWriter]. *)
Record Logger := mkLogger {
  log_writer : Stream;
  log_console : bool
}.

(** The ten arguments of [scan.NewUdpProbeScanner], in order. *)
Record ScannerArgs := mkScannerArgs {
  arg_log : Logger;
  arg_scanAllAddresses : bool;
  arg_hostConcurrency : N;
  arg_portConcurrency : N;
  arg_retransmissions : N;
  arg_timeout : Z;
  arg_socks5Address : string;
  arg_socks5User : string;
  arg_socks5Password : string;
  arg_socks5Timeout : Z
}.

(** What the command observes of its surroundings: whether [os.OpenFile]
    succeeds (its error, if any), the error result of the scanner's
    constructor, and what [Length()] answers once [Scan] has run. *)
Record World := mkWorld {
  os_OpenFile : string -> Z -> Z -> option string;
  scan_NewUdpProbeScanner : ScannerArgs -> option string;
  scan_Length : ScannerArgs -> list string -> Z
}.

(** The calls the command makes, in program order.  Timestamps and the
    structured fields of log records are left out of [EvLog]. *)
Inductive Event :=
| EvSetGlobalLevel (l : Level)
| EvSetTimeFieldFormat
| EvOpenFile (path : string) (flags perm : Z)
| EvLog (lg : Logger) (lvl : Level) (msg : string)
| EvNewUdpProbeScanner (a : ScannerArgs)
| EvScan (targets : list string)
| EvLength
| EvSaveJson (out : Stream)
| EvSaveYAML (out : Stream)
| EvSaveTable (format : string) (out : Stream)
| EvClose (f : Stream)
| EvPrintln (line : string).

(** ** A monad for the body of RunE *)

(** The state a run threads: the package variables (RunE assigns
    [outputFormat]), the calls made so far, and the files whose [Close] is
    deferred (most recent first). *)
Record St := mkSt {
  globals : Config;
  events : list Event;
  deferred : list Stream
}.

(** A computation either yields a value or ends the process
    ([os.Exit], reached through [log.Fatal]). *)
Inductive Outcome (A : Type) :=
| Ret (a : A)
| Exit (code : Z).
Arguments Ret {A} a.
Arguments Exit {A} code.

Definition M (A : Type) : Type := St -> Outcome A * St.

#[global] Instance M_ret : MRet M := fun A a s => (Ret a, s).

#[global] Instance M_bind : MBind M := fun A B k m s =>
  match m s with
  | (Ret a, s') => k a s'
  | (Exit c, s') => (Exit c, s')
  end.

Definition get_globals : M Config := fun s => (Ret (globals s), s).

Definition put_globals (g : Config) : M unit :=
  fun s => (Ret tt, mkSt g (events s) (deferred s)).

Definition emit (e : Event) : M unit :=
  fun s => (Ret tt, mkSt (globals s) (events s ++ [e]) (deferred s)).

Definition defer_Close (f : Stream) : M unit :=
  fun s => (Ret tt, mkSt (globals s) (events s) (f :: deferred s)).

Definition os_Exit {A} (code : Z) : M A := fun s => (Exit code, s).

(** [os.OpenFile]: the call is recorded and the world answers. *)
Definition OpenFile (w : World) (path : string) (flags perm : Z) : M (option string) :=
  emit (EvOpenFile path flags perm) ;;
  mret (os_OpenFile w path flags perm).

(** Returning from the function runs the deferred calls, last first. *)
Definition run_deferred {A} (m : M A) : M A := fun s =>
  match m s with
  | (Ret a, s') =>
      (Ret a, mkSt (globals s') (events s' ++ map EvClose (deferred s')) [])
  | (Exit c, s') => (Exit c, s')
  end.

(** ** rootCmd.RunE *)

(** The chain [if silent ... else if quiet ... else if info]. *)
Definition set_level (g : Config) : M unit :=
  if silent g then emit (EvSetGlobalLevel Disabled)
  else if quiet g then emit (EvSetGlobalLevel ErrorLevel)
  else if trace g then emit (EvSetGlobalLevel TraceLevel)
  else if debug g then emit (EvSetGlobalLevel DebugLevel)
  else if info g then emit (EvSetGlobalLevel InfoLevel)
  else mret tt.

(** [zerolog.New(os.Stderr)...Logger()], sent through a console writer
    when the log format is "auto" or "pretty". *)
Definition stderr_logger (g : Config) : Logger :=
  mkLogger Stderr ((logFormat g =? "auto") || (logFormat g =? "pretty")).

(** The logger on an opened log file: only "pretty" gets the console
    writer. *)
Definition file_logger (g : Config) : Logger :=
  mkLogger (File (logPath g)) (logFormat g =? "pretty").

(** The three-way choice of the logger (lines 155 to 189). *)
Definition open_log (w : World) (g : Config) (logFileFlags : Z) : M Logger :=
  if logPath g =? "" then mret (stderr_logger g)
  else
    err ← OpenFile w (logPath g) logFileFlags 420 ;
    match err with
    | None =>
        defer_Close (File (logPath g)) ;;
        mret (file_logger g)
    | Some _ =>
        emit (EvLog (stderr_logger g) ErrorLevel "Could not open log file for writing") ;;
        mret (stderr_logger g)
    end.

(** [if outputFormat == "auto" { outputFormat = v }]. *)
Definition resolve_auto (v : string) : M unit :=
  g ← get_globals ;
  if outputFormat g =? "auto" then put_globals (set_outputFormat v g) else mret tt.

(** The choice of the exporter (lines 249 to 257).  The
    [log.Info().Str("format", "json")] of the first branch is never
    sent (no [Msg]), so it leaves no record. *)
Definition export (out : Stream) : M unit :=
  g ← get_globals ;
  if (outputFormat g =? "json") || (outputFormat g =? "jsonl") then
    emit (EvSaveJson out)
  else if (outputFormat g =? "yml") || (outputFormat g =? "yaml") then
    emit (EvSaveYAML out)
  else
    emit (EvSaveTable (outputFormat g) out).

(** The arguments handed to the constructor (lines 193 to 203). *)
Definition scanner_args (log : Logger) (g : Config) : ScannerArgs :=
  mkScannerArgs log (scanAllAddresses g) (hostConcurrency g) (portConcurrency g)
    (retransmissions g) (Duration_of_ms (timeoutMs g))
    (socks5Address g) (socks5User g) (socks5Password g)
    (int_of_uint (socks5Timeout g)).

(** The block guarded by [scanner.Length() > 0] (lines 227 to 257): the
    output destination is chosen, "auto" is resolved, and one exporter
    runs.  Its value is the variable [err] when the block ends:
    [os.OpenFile] assigns it, nothing after does. *)
Definition export_results (w : World) (g : Config) (log : Logger) (outputFlags : Z)
    (err : option string) : M (option string) :=
  if outputPath g =? "" then
    resolve_auto "pretty" ;;
    export Stdout ;;
    mret err
  else
    err ← OpenFile w (outputPath g) outputFlags 420 ;
    match err with
    | None =>
        resolve_auto "json" ;;
        defer_Close (File (outputPath g)) ;;
        export (File (outputPath g)) ;;
        mret err
    | Some _ =>
        emit (EvLog log ErrorLevel "Could not open output file for writing") ;;
        resolve_auto "pretty" ;;
        export Stdout ;;
        mret err
    end.

(** The function body.  Its value is the named result [err] at the
    [return] reached. *)
Definition RunE_body (w : World) (targets : list string) : M (option string) :=
  let outputFlags := Z.lor O_WRONLY O_CREATE in
  let logFileFlags := Z.lor (Z.lor O_WRONLY O_CREATE) O_APPEND in
  g0 ← get_globals ;
  put_globals (set_outputFormat (ToLower (outputFormat g0)) g0) ;;
  g ← get_globals ;
  if negb (supported supportedOutputFormats (outputFormat g)) then
    mret (Some ("invalid output format: " +:+ outputFormat g))
  else if negb (supported supportedLogFormats (logFormat g)) then
    mret (Some ("invalid log format: " +:+ logFormat g))
  else if (portConcurrency g <? 1)%N || (hostConcurrency g <? 1)%N then
    mret (Some "concurrency value must be > 0")
  else if (timeoutMs g <? 1)%N then
    mret (Some "timeout value must be > 0")
  else
    let outputFlags :=
      if outputAppend g then Z.lor outputFlags O_APPEND else outputFlags in
    set_level g ;;
    emit EvSetTimeFieldFormat ;;
    log ← open_log w g logFileFlags ;
    let a := scanner_args log g in
    emit (EvNewUdpProbeScanner a) ;;
    err ← match scan_NewUdpProbeScanner w a with
          | Some e =>
              emit (EvLog log FatalLevel "Failed to initialize scanner") ;;
              os_Exit 1
          | None => mret None
          end ;
    emit (EvLog log InfoLevel "Starting scanner") ;;
    emit (EvScan targets) ;;
    emit (EvLog log InfoLevel "Scan complete") ;;
    emit EvLength ;;
    if (0 <? scan_Length w a targets)%Z
    then export_results w g log outputFlags err
    else mret err.

Definition RunE (w : World) (targets : list string) : M (option string) :=
  run_deferred (RunE_body w targets).

(** A run starts with the variables as flag parsing left them. *)
Definition start (g : Config) : St := mkSt g [] [].

(** ** init and Execute *)

(** A value given to a flag on the command line, already split by
    kind. *)
Inductive FlagValue :=
| VString (s : string)
| VBool (b : bool)
| VUint (n : N).

(** A registered flag: its name, its shorthand, and the assignment to the
    variable it was registered with ([None] when the value is not of the
    flag's kind, or does not fit a [uint]). *)
Record Flag := mkFlag {
  flag_name : string;
  flag_shorthand : string;
  flag_set : FlagValue -> Config -> option Config
}.

Definition StringVarP (set : string -> Config -> Config) (name short : string) : Flag :=
  mkFlag name short
    (fun v g => match v with VString x => Some (set x g) | _ => None end).

Definition BoolVarP (set : bool -> Config -> Config) (name short : string) : Flag :=
  mkFlag name short
    (fun v g => match v with VBool x => Some (set x g) | _ => None end).

Definition UintVarP (set : N -> Config -> Config) (name short : string) : Flag :=
  mkFlag name short
    (fun v g =>
       match v with
       | VUint x => if (x <? 2 ^ 64)%N then Some (set x g) else None
       | _ => None
       end).

(** [rootCmd.Version]. *)
Definition Version : string := "0.0.1-beta".

(** The flag [rootCmd.InitDefaultVersionFlag()] adds (line 67): a boolean
    "version", with the shorthand "v" since no flag holds it yet.  It is
    bound to no package variable. *)
Definition version_flag : Flag := BoolVarP (fun _ g => g) "version" "v".

(** The flag cobra adds when the command is executed: a boolean "help"
    with the shorthand "h", bound to no package variable either. *)
Definition help_flag : Flag := BoolVarP (fun _ g => g) "help" "h".

(** The flags [init] registers, in its order: the version flag, then the
    fourteen bound to package variables.  The four SOCKS5 registrations
    sit inside a comment in the source and are absent here;
    [InitDefaultCompletionCmd] (line 68) registers no flag. *)
Definition init : list Flag := [
  version_flag;
  StringVarP set_outputPath "output" "o";
  StringVarP set_logPath "log" "O";
  BoolVarP set_outputAppend "append" "a";
  StringVarP set_outputFormat "format" "f";
  StringVarP set_logFormat "log-format" "L";
  UintVarP set_hostConcurrency "host-tasks" "c";
  UintVarP set_portConcurrency "port-tasks" "p";
  UintVarP set_retransmissions "retries" "r";
  UintVarP set_timeoutMs "timeout" "t";
  BoolVarP set_scanAllAddresses "all" "A";
  BoolVarP set_debug "debug" "D";
  BoolVarP set_trace "trace" "T";
  BoolVarP set_quiet "quiet" "q";
  BoolVarP set_silent "silent" "s"
].

(** A command line: the flags given (by name or shorthand) with their
    values, in order, and the positional arguments. *)
Record Invocation := mkInvocation {
  given : list (string * FlagValue);
  positional : list string
}.

Definition find_flag (flags : list Flag) (k : string) : option Flag :=
  List.find (fun f => (flag_name f =? k) || (flag_shorthand f =? k)) flags.

(** Flag parsing: every given flag must be registered and take its value;
    the variables are assigned in command-line order. *)
Fixpoint ParseFlags (flags : list Flag) (gs : list (string * FlagValue)) (g : Config)
  : string + Config :=
  match gs with
  | [] => inr g
  | (k, v) :: gs' =>
      match find_flag flags k with
      | None => inl ("unknown flag: " +:+ k)
      | Some f =>
          match flag_set f v g with
          | None => inl ("invalid argument for flag: " +:+ k)
          | Some g' => ParseFlags flags gs' g'
          end
      end
  end.

(** The flags known when the command line is parsed. *)
Definition command_flags : list Flag := init ++ [help_flag].

(** The value a boolean flag holds after the command line, from [b]: its
    last assignment. *)
Fixpoint bool_flag (f : Flag) (gs : list (string * FlagValue)) (b : bool) : bool :=
  match gs with
  | [] => b
  | (k, v) :: gs' =>
      bool_flag f gs'
        (if (flag_name f =? k) || (flag_shorthand f =? k)
         then match v with VBool x => x | _ => b end
         else b)
  end.

Definition help_requested (inv : Invocation) : bool :=
  bool_flag help_flag (given inv) false.

Definition version_requested (inv : Invocation) : bool :=
  bool_flag version_flag (given inv) false.

(** [rootCmd.Execute()]: the flags are parsed into the package variables;
    with the help flag set cobra prints the help text and with the
    version flag set (the command has a [Version]) the version, and
    returns no error; otherwise [Args] validates the positional
    arguments, and only then is [RunE] called with them.  What cobra
    itself prints (help, version, error and usage text) is not among the
    recorded calls. *)
Definition rootCmd_Execute (w : World) (inv : Invocation) : Outcome (option string) * St :=
  match ParseFlags command_flags (given inv) defaults with
  | inl e => (Ret (Some e), start defaults)
  | inr g =>
      if help_requested inv then (Ret None, start g)
      else if version_requested inv then (Ret None, start g)
      else
        match MinimumNArgs 1 (positional inv) with
        | Some e => (Ret (Some e), start g)
        | None => RunE w (positional inv) (start g)
        end
  end.

(** [Execute]: an error is printed and the process exits with status 1. *)
Definition Execute (w : World) (inv : Invocation) : Outcome unit * St :=
  match rootCmd_Execute w inv with
  | (Ret (Some e), s) =>
      (Exit 1, mkSt (globals s) (events s ++ [EvPrintln e]) (deferred s))
  | (Ret None, s) => (Ret tt, s)
  | (Exit c, s) => (Exit c, s)
  end.

(** Predicates on the calls of a run. *)
Definition is_scanner_call (e : Event) : bool :=
  match e with
  | EvNewUdpProbeScanner _ | EvScan _ => true
  | _ => false
  end.

Definition is_export (e : Event) : bool :=
  match e with
  | EvSaveJson _ | EvSaveYAML _ | EvSaveTable _ _ => true
  | _ => false
  end.

(** The exporter the format names, in the words of the interface
    description: JSON for "json" and "jsonl", YAML for "yaml" and "yml",
    the table writer for every other format. *)
Definition exporter_for (format : string) (out : Stream) : Event :=
  if bool_decide (format ∈ ["json"; "jsonl"]) then EvSaveJson out
  else if bool_decide (format ∈ ["yaml"; "yml"]) then EvSaveYAML out
  else EvSaveTable format out.

(** Where results go and what "auto" becomes there: standard output and
    "pretty" without an output path or when the file cannot be opened,
    the file and "json" otherwise. *)
Definition output_stream (w : World) (g : Config) (flags : Z) : Stream :=
  if outputPath g =? "" then Stdout
  else match os_OpenFile w (outputPath g) flags 420 with
       | None => File (outputPath g)
       | Some _ => Stdout
       end.

Definition resolved_format (format : string) (out : Stream) : string :=
  if format =? "auto"
  then match out with File _ => "json" | _ => "pretty" end
  else format.

(** The flags the output file is opened with. *)
Definition output_flags (g : Config) : Z :=
  if outputAppend g then Z.lor (Z.lor O_WRONLY O_CREATE) O_APPEND
  else Z.lor O_WRONLY O_CREATE.

Definition log_flags : Z := Z.lor (Z.lor O_WRONLY O_CREATE) O_APPEND.

(** The checks of lines 125 to 136 all pass. *)
Definition valid (g : Config) : bool :=
  supported supportedOutputFormats (ToLower (outputFormat g))
  && supported supportedLogFormats (logFormat g)
  && negb ((portConcurrency g <? 1)%N || (hostConcurrency g <? 1)%N)
  && negb (timeoutMs g <? 1)%N.

(** The logger the run ends up with. *)
Definition logger_of (w : World) (g : Config) : Logger :=
  if logPath g =? "" then stderr_logger g
  else match os_OpenFile w (logPath g) log_flags 420 with
       | None => file_logger g
       | Some _ => stderr_logger g
       end.

(** The calls a run makes before it builds the scanner, and the ones the
    fallbacks add: levels, file openings, error records. *)
Definition is_setup (e : Event) : bool :=
  match e with
  | EvSetGlobalLevel _ | EvSetTimeFieldFormat | EvOpenFile _ _ _
  | EvLog _ ErrorLevel _ => true
  | _ => false
  end.

(** The variables after line 123. *)
Definition lowered (g : Config) : Config :=
  set_outputFormat (ToLower (outputFormat g)) g.

(** * Package scan: the engine behind the command *)

(** ** The port-probe state machine *)

Module Prober.

(** Modelled from the spec: the port-probe state machine of package
    [scan] (section 4.3), whose source is not part of [cmd/root.go]. *)
Inductive State :=
| Pending
| AwaitingResponse
| Retrying
| Open
| Closed
| OpenOrFiltered
| Error.

(** Modelled from the spec: what one wait of a probe of package [scan]
    ends with (a correlated reply, an ICMP rejection, the timer, a socket
    failure). *)
Inductive Signal :=
| Reply
| Rejection
| Timeout
| SocketFailure.

(** Modelled from the spec: the record of one pending probe of package
    [scan]: its state, the attempts counter, and the datagrams sent. *)
Record Probe := mkProbe {
  state : State;
  attempts : nat;
  sent : nat
}.

(** Modelled from the spec: the terminal states of the probe of package
    [scan]. *)
Definition terminal (s : State) : bool :=
  match s with
  | Open | Closed | OpenOrFiltered | Error => true
  | _ => false
  end.

(** Modelled from the spec: the initial probe of package [scan], nothing
    sent yet. *)
Definition initial : Probe := mkProbe Pending 0 0.

(** Modelled from the spec: one transition of the port probe (steps 1 to
    7 of section 4.3).  [env k] is what the wait after the k-th send ends
    with; [r] is the configured number of retransmissions. *)
Definition step (r : nat) (env : nat -> Signal) (p : Probe) : Probe :=
  match state p with
  | Pending => mkProbe AwaitingResponse 1 (S (sent p))
  | AwaitingResponse | Retrying =>
      match env (attempts p) with
      | Reply => mkProbe Open (attempts p) (sent p)
      | Rejection => mkProbe Closed (attempts p) (sent p)
      | SocketFailure => mkProbe Error (attempts p) (sent p)
      | Timeout =>
          if (attempts p <? r + 1)%nat
          then mkProbe Retrying (S (attempts p)) (S (sent p))
          else mkProbe OpenOrFiltered (attempts p) (sent p)
      end
  | _ => p
  end.

(** Modelled from the spec: the probe is stepped until its state is
    terminal; [fuel] bounds the number of transitions. *)
Fixpoint run (fuel : nat) (r : nat) (env : nat -> Signal) (p : Probe) : option Probe :=
  if terminal (state p) then Some p
  else match fuel with
       | O => None
       | S fuel' => run fuel' r env (step r env p)
       end.

(** Modelled from the spec: probing one port from the initial state. *)
Definition probe (fuel r : nat) (env : nat -> Signal) : option Probe :=
  run fuel r env initial.

End Prober.

(** ** Target resolution and the session's bookkeeping *)

Module Session.

(** Modelled from the spec: the ResolvedHost of package [scan], a
    hostname with the addresses to scan. *)
Record ResolvedHost := mkResolvedHost {
  hostname : string;
  addresses : list string
}.

(** Modelled from the spec: the ResolutionError of package [scan],
    attributed to its target. *)
Record ResolutionError := mkResolutionError {
  failed_target : string
}.

(** Modelled from the spec: the part of the ScanSession of package [scan]
    that resolution fills: the resolved hosts and the per-target
    resolution errors. *)
Record ScanSession := mkScanSession {
  hosts : list ResolvedHost;
  resolution_errors : list ResolutionError
}.

(** Modelled from the spec: the session of package [scan] at its
    start. *)
Definition empty : ScanSession := mkScanSession [] [].

Section Resolver.

(** The two facilities resolution rests on: recognising a literal
    address, and the system resolver ([None] when the lookup fails). *)
Variable parse_literal : string -> option string.
Variable system_lookup : string -> option (list string).

(** Modelled from the spec: the Target Resolver of package [scan]
    (section 4.1).  A literal address resolves to itself; a hostname to
    every address found or, without "scan all addresses", to the first.
    A lookup that finds no address counts as a failure. *)
Definition resolve (scanAll : bool) (target : string)
  : list string + ResolutionError :=
  match parse_literal target with
  | Some a => inl [a]
  | None =>
      match system_lookup target with
      | Some (a :: rest) => inl (if scanAll then a :: rest else [a])
      | _ => inr (mkResolutionError target)
      end
  end.

(** Modelled from the spec: a target of package [scan]'s resolver is
    resolvable when resolution yields addresses. *)
Definition resolvable (scanAll : bool) (target : string) : bool :=
  match resolve scanAll target with
  | inl _ => true
  | inr _ => false
  end.

(** Modelled from the spec: what [Scan] does with one target (sections
    4.5 and 7): a resolved host is added, a failure is recorded and the
    target skipped. *)
Definition resolve_target (scanAll : bool) (s : ScanSession) (target : string)
  : ScanSession :=
  match resolve scanAll target with
  | inl addrs =>
      mkScanSession (hosts s ++ [mkResolvedHost target addrs]) (resolution_errors s)
  | inr e =>
      mkScanSession (hosts s) (resolution_errors s ++ [e])
  end.

(** Modelled from the spec: the resolution pass of [Scan] over the batch
    of targets, in order. *)
Definition resolve_targets (scanAll : bool) (targets : list string) : ScanSession :=
  fold_left (resolve_target scanAll) targets empty.

End Resolver.

End Session.

(** ** The result store *)

Module ResultStore.

(** Modelled from the spec: the ProbeResult of package [scan] (section
    3). *)
Record ProbeResult := mkProbeResult {
  host : string;
  address : string;
  port : N;
  state : Prober.State;
  attempts : nat;
  error : option string
}.

(** Modelled from the spec: the sort key of a snapshot of package
    [scan]: host, then port. *)
Definition key (r : ProbeResult) : string * N := (host r, port r).

(** Modelled from the spec: the order of package [scan]'s snapshot on
    keys: hosts as byte strings, ties decided by port. *)
Definition key_leb (k1 k2 : string * N) : bool :=
  match String.compare (fst k1) (fst k2) with
  | Lt => true
  | Eq => (snd k1 <=? snd k2)%N
  | Gt => false
  end.

(** Modelled from the spec: results of package [scan] compared by their
    keys. *)
Definition result_leb (r1 r2 : ProbeResult) : bool := key_leb (key r1) (key r2).


(** Modelled from the spec: [Length()] of package [scan]'s store, the
    current count. *)
Definition Length (store : list ProbeResult) : nat := length store.




End ResultStore.

(** ** The two-level worker pool *)

Module Pool.

(** Modelled from the spec: what can happen next in the worker pool of
    package [scan]; [i] is the position of a running prober. *)
Inductive Action :=
| StartProber
| StartProbe (i : nat)
| FinishProbe (i : nat)
| FinishProber (i : nat).

(** Modelled from the spec: the two-level bounded worker pool of package
    [scan] (sections 4.2, 4.3 and 5).  The state lists the running Port
    Probers, each with the number of its running port probes.  A prober
    starts only while fewer than [hostConcurrency] run, a probe only
    while its prober runs fewer than [portConcurrency]; [None] means the
    action has to wait. *)
Definition step (hostConcurrency portConcurrency : nat) (s : list nat) (a : Action)
  : option (list nat) :=
  match a with
  | StartProber =>
      if (length s <? hostConcurrency)%nat then Some (s ++ [0%nat])%list else None
  | StartProbe i =>
      match s !! i with
      | Some n => if (n <? portConcurrency)%nat then Some (<[i := S n]> s) else None
      | None => None
      end
  | FinishProbe i =>
      match s !! i with
      | Some (S n) => Some (<[i := n]> s)
      | _ => None
      end
  | FinishProber i =>
      match s !! i with
      | Some O => Some (delete i s)
      | _ => None
      end
  end.

(** Modelled from the spec: the pool after a sequence of attempted
    actions, from the idle pool; an action that has to wait leaves the
    pool as it is. *)
Definition run (hostConcurrency portConcurrency : nat) (schedule : list Action)
  : list nat :=
  fold_left (fun s a => default s (step hostConcurrency portConcurrency s a))
    schedule [].

(** Modelled from the spec: the number of running port probes of
    package [scan] over all probers. *)
Definition active_probes (s : list nat) : nat := sum_list s.

End Pool.

(** * Sample surroundings and inputs *)

(** Files open, the scanner is built, nothing is found. *)
Definition quiet_world : World :=
  mkWorld (fun _ _ _ => None) (fun _ => None) (fun _ _ => 0%Z).

(** The scanner's constructor fails. *)
Definition failing_scanner_world : World :=
  mkWorld (fun _ _ _ => None) (fun _ => Some "no route") (fun _ _ => 0%Z).

(** Files open and a scan leaves two results. *)
Definition results_world : World :=
  mkWorld (fun _ _ _ => None) (fun _ => None) (fun _ _ => 2%Z).

(** No file can be opened; a scan leaves one result. *)
Definition unwritable_world : World :=
  mkWorld (fun path _ _ => Some ("open " +:+ path +:+ ": permission denied"))
          (fun _ => None) (fun _ _ => 1%Z).

(** The SOCKS5 variables hold their initial values. *)
Definition socks5_unset (g : Config) : Prop :=
  socks5Address g = "" /\ socks5User g = "" /\ socks5Password g = "" /\
  socks5Timeout g = 3000%N.

(** The snapshot order as relations. *)
Definition key_le (k1 k2 : string * N) : Prop := ResultStore.key_leb k1 k2 = true.

Definition result_le (r1 r2 : ResultStore.ProbeResult) : Prop :=
  ResultStore.result_leb r1 r2 = true.




(** The two bounds of the pool, level by level. *)
Definition pool_ok (hc pc : nat) (s : list nat) : Prop :=
  (length s <= hc)%nat /\ Forall (fun n => (n <= pc)%nat) s.

(** * The calls of a run, spelled out *)

(** [os.O_TRUNC], [os.O_EXCL] and [os.O_RDWR] (Linux values): flags the
    command never passes. *)
Definition O_TRUNC : Z := 512.
Definition O_EXCL : Z := 128.
Definition O_RDWR : Z := 2.

(** The level the chain of lines 141 to 151 sets, if any. *)
Definition level_of (g : Config) : option Level :=
  if silent g then Some Disabled
  else if quiet g then Some ErrorLevel
  else if trace g then Some TraceLevel
  else if debug g then Some DebugLevel
  else if info g then Some InfoLevel
  else None.

Definition level_events (g : Config) : list Event :=
  match level_of g with
  | Some l => [EvSetGlobalLevel l]
  | None => []
  end.

(** The calls of lines 155 to 189, and the file they leave open. *)
Definition log_events (w : World) (g : Config) : list Event :=
  if logPath g =? "" then []
  else EvOpenFile (logPath g) log_flags 420
       :: match os_OpenFile w (logPath g) log_flags 420 with
          | None => []
          | Some _ =>
              [EvLog (stderr_logger g) ErrorLevel "Could not open log file for writing"]
          end.

Definition log_opened (w : World) (g : Config) : list Stream :=
  if logPath g =? "" then []
  else match os_OpenFile w (logPath g) log_flags 420 with
       | None => [File (logPath g)]
       | Some _ => []
       end.

(** The calls of lines 227 to 257 in a state whose variables are [g], and
    the file they leave open. *)
Definition output_events (w : World) (g : Config) (log : Logger) : list Event :=
  let out := output_stream w g (output_flags g) in
  (if outputPath g =? "" then []
   else EvOpenFile (outputPath g) (output_flags g) 420
        :: match os_OpenFile w (outputPath g) (output_flags g) 420 with
           | None => []
           | Some _ =>
               [EvLog log ErrorLevel "Could not open output file for writing"]
           end)
  ++ [exporter_for (resolved_format (outputFormat g) out) out].

Definition output_opened (w : World) (g : Config) : list Stream :=
  match output_stream w g (output_flags g) with
  | File p => [File p]
  | _ => []
  end.

(** [scanner.Length() > 0] for the scanner the run builds. *)
Definition has_results (w : World) (targets : list string) (g : Config) : bool :=
  (0 <? scan_Length w (scanner_args (logger_of w g) g) targets)%Z.

(** All calls of a run that passes validation and builds its scanner. *)
Definition RunE_trace (w : World) (targets : list string) (g : Config) : list Event :=
  let log := logger_of w g in
  level_events g ++ [EvSetTimeFieldFormat] ++ log_events w g
  ++ [EvNewUdpProbeScanner (scanner_args log g); EvLog log InfoLevel "Starting scanner";
      EvScan targets; EvLog log InfoLevel "Scan complete"; EvLength]
  ++ (if has_results w targets g then output_events w (lowered g) log else [])
  ++ map EvClose ((if has_results w targets g then output_opened w g else [])
                  ++ log_opened w g).

(** The error and the variables such a run ends with. *)
Definition RunE_result (w : World) (targets : list string) (g : Config) : option string :=
  if has_results w targets g && negb (outputPath g =? "")
  then os_OpenFile w (outputPath g) (output_flags g) 420
  else None.

Definition RunE_globals (w : World) (targets : list string) (g : Config) : Config :=
  if has_results w targets g
  then set_outputFormat
         (resolved_format (ToLower (outputFormat g)) (output_stream w g (output_flags g))) g
  else lowered g.

(** Selectors on calls. *)
Definition is_level_call (e : Event) : bool :=
  match e with EvSetGlobalLevel _ => true | _ => false end.

Definition is_open (e : Event) : bool :=
  match e with EvOpenFile _ _ _ => true | _ => false end.

Definition is_close (e : Event) : bool :=
  match e with EvClose _ => true | _ => false end.

(** The files the [os.OpenFile] calls among [evs] opened, in order. *)
Definition opened_files (w : World) (evs : list Event) : list Stream :=
  flat_map (fun e =>
              match e with
              | EvOpenFile p f m =>
                  match os_OpenFile w p f m with
                  | None => [File p]
                  | Some _ => []
                  end
              | _ => []
              end) evs.

(** * Properties of the command layer *)

(** The model at work on the defaults. *)
Example default_timeout : Duration_of_ms (timeoutMs defaults) = 3000000000%Z.
Proof. reflexivity. Qed.

Example auto_on_stdout : resolved_format "auto" Stdout = "pretty".
Proof. reflexivity. Qed.

Example auto_on_file : resolved_format "auto" (File "out") = "json".
Proof. reflexivity. Qed.

Example default_run :
  List.filter (fun e => is_scanner_call e || is_export e)
    (events (snd (Execute results_world (mkInvocation [] ["127.0.0.1"]))))
  = [EvNewUdpProbeScanner (scanner_args (mkLogger Stderr true) defaults);
     EvScan ["127.0.0.1"]; EvSaveTable "pretty" Stdout].
Proof. reflexivity. Qed.

Ltac unfold_M :=
  unfold OpenFile, resolve_auto, mbind, M_bind, mret, M_ret, emit, get_globals,
    put_globals, defer_Close, os_Exit in *.

Lemma set_level_run g s :
  exists evs, set_level g s = (Ret tt, mkSt (globals s) (events s ++ evs) (deferred s))
              /\ forallb is_setup evs = true.
Proof.
  unfold set_level.
  destruct (silent g); [|destruct (quiet g); [|destruct (trace g);
    [|destruct (debug g); [|destruct (info g)]]]];
    unfold_M; try (eexists [_]; split; reflexivity).
  exists []. rewrite app_nil_r. destruct s; split; reflexivity.
Qed.

Lemma open_log_run w g s :
  exists evs dfr,
    open_log w g log_flags s
      = (Ret (logger_of w g), mkSt (globals s) (events s ++ evs) (dfr ++ deferred s))
    /\ forallb is_setup evs = true.
Proof.
  unfold open_log, logger_of. destruct (logPath g =? "").
  - exists [], []. rewrite app_nil_r. destruct s; split; reflexivity.
  - unfold_M. simpl. destruct (os_OpenFile w (logPath g) log_flags 420); simpl.
    + eexists [_; _], []. rewrite <- app_assoc. split; reflexivity.
    + eexists [_], [_]. split; reflexivity.
Qed.

Lemma export_run out s :
  export out s
  = (Ret tt, mkSt (globals s) (events s ++ [exporter_for (outputFormat (globals s)) out])
               (deferred s)).
Proof.
  unfold export, exporter_for. unfold_M.
  destruct (outputFormat (globals s) =? "json") eqn:E1; simpl.
  { apply String.eqb_eq in E1. rewrite E1. reflexivity. }
  destruct (outputFormat (globals s) =? "jsonl") eqn:E2; simpl.
  { apply String.eqb_eq in E2. rewrite E2. reflexivity. }
  apply String.eqb_neq in E1, E2.
  rewrite bool_decide_eq_false_2 by (rewrite !elem_of_cons, elem_of_nil; tauto).
  destruct (outputFormat (globals s) =? "yml") eqn:E3; simpl.
  { apply String.eqb_eq in E3. rewrite E3. reflexivity. }
  destruct (outputFormat (globals s) =? "yaml") eqn:E4; simpl.
  { apply String.eqb_eq in E4. rewrite E4. reflexivity. }
  apply String.eqb_neq in E3, E4.
  rewrite bool_decide_eq_false_2 by (rewrite !elem_of_cons, elem_of_nil; tauto). reflexivity.
Qed.

Lemma exporter_is_export f out : is_export (exporter_for f out) = true.
Proof. unfold exporter_for. repeat case_bool_decide; reflexivity. Qed.

Lemma outputFormat_set v g : outputFormat (set_outputFormat v g) = v.
Proof. destruct g; reflexivity. Qed.

Lemma set_outputFormat_same g : set_outputFormat (outputFormat g) g = g.
Proof. destruct g; reflexivity. Qed.

Lemma exporter_not_scanner_call f out : is_scanner_call (exporter_for f out) = false.
Proof. unfold exporter_for. repeat case_bool_decide; reflexivity. Qed.

Ltac close_export :=
  split; [reflexivity | split;
    [ cbn [List.filter is_export]; rewrite exporter_is_export; reflexivity
    | cbn [List.filter is_scanner_call]; rewrite exporter_not_scanner_call; reflexivity ] ].

(** The export block, run in a state whose variables are [g]. *)
Lemma export_results_run w g log err s :
  globals s = g ->
  let out := output_stream w g (output_flags g) in
  let fmt := resolved_format (outputFormat g) out in
  exists evs dfr,
    export_results w g log (output_flags g) err s
      = (Ret (if outputPath g =? "" then err
              else os_OpenFile w (outputPath g) (output_flags g) 420),
         mkSt (set_outputFormat fmt g) (events s ++ evs) (dfr ++ deferred s))
    /\ List.filter is_export evs = [exporter_for fmt out]
    /\ List.filter is_scanner_call evs = [].
Proof.
  intros Hg. subst g. unfold export_results, output_stream, resolved_format.
  destruct (outputPath (globals s) =? ""); simpl.
  - unfold_M.
    destruct (outputFormat (globals s) =? "auto") eqn:Ea; rewrite export_run; simpl.
    + rewrite outputFormat_set. eexists [_], []. close_export.
    + rewrite set_outputFormat_same. eexists [_], []. close_export.
  - unfold_M. simpl.
    destruct (os_OpenFile w (outputPath (globals s)) (output_flags (globals s)) 420); simpl;
      (destruct (outputFormat (globals s) =? "auto") eqn:Ea; rewrite export_run; simpl;
       [rewrite outputFormat_set | rewrite set_outputFormat_same]).
    + eexists [_; _; _], []. rewrite <- !app_assoc. close_export.
    + eexists [_; _; _], []. rewrite <- !app_assoc. close_export.
    + eexists [_; _], [_]. rewrite <- !app_assoc. close_export.
    + eexists [_; _], [_]. rewrite <- !app_assoc. close_export.
Qed.

Lemma valid_inv g :
  valid g = true ->
  supported supportedOutputFormats (ToLower (outputFormat g)) = true /\
  supported supportedLogFormats (logFormat g) = true /\
  ((portConcurrency g <? 1)%N || (hostConcurrency g <? 1)%N) = false /\
  (timeoutMs g <? 1)%N = false.
Proof.
  unfold valid. rewrite !andb_true_iff, !negb_true_iff. tauto.
Qed.

Lemma RunE_body_valid w targets g :
  valid g = true ->
  let log := logger_of w g in
  let a := scanner_args log g in
  exists pre dfr,
    forallb is_setup pre = true /\
    RunE_body w targets (start g) =
      match scan_NewUdpProbeScanner w a with
      | Some _ =>
          (Exit 1,
           mkSt (lowered g)
             (pre ++ [EvNewUdpProbeScanner a;
                      EvLog log FatalLevel "Failed to initialize scanner"]) dfr)
      | None =>
          let s1 :=
            mkSt (lowered g)
              (pre ++ [EvNewUdpProbeScanner a; EvLog log InfoLevel "Starting scanner";
                       EvScan targets; EvLog log InfoLevel "Scan complete"; EvLength])
              dfr in
          if (0 <? scan_Length w a targets)%Z
          then export_results w (lowered g) log (output_flags g) None s1
          else (Ret None, s1)
      end.
Proof.
  intros Hv log a. apply valid_inv in Hv as (Ho & Hl & Hc & Ht).
  destruct (set_level_run (lowered g) (start (lowered g))) as (e1 & E1 & F1).
  destruct (open_log_run w (lowered g)
              (mkSt (lowered g) (e1 ++ [EvSetTimeFieldFormat]) [])) as (e2 & d2 & E2 & F2).
  cbn [start globals events deferred app] in E1, E2.
  exists (e1 ++ [EvSetTimeFieldFormat] ++ e2), d2. split.
  { rewrite !forallb_app, F1, F2. reflexivity. }
  unfold RunE_body.
  unfold mbind at 1. unfold M_bind at 1. unfold get_globals at 1. cbn [globals start].
  unfold mbind at 1. unfold M_bind at 1. unfold put_globals at 1. cbn [globals start events deferred].
  unfold mbind at 1. unfold M_bind at 1. unfold get_globals at 1. cbn [globals].
  fold (lowered g).
  replace (outputFormat (lowered g)) with (ToLower (outputFormat g)) by (destruct g; reflexivity).
  replace (logFormat (lowered g)) with (logFormat g) by (destruct g; reflexivity).
  replace (portConcurrency (lowered g)) with (portConcurrency g) by (destruct g; reflexivity).
  replace (hostConcurrency (lowered g)) with (hostConcurrency g) by (destruct g; reflexivity).
  replace (timeoutMs (lowered g)) with (timeoutMs g) by (destruct g; reflexivity).
  rewrite Ho, Hl, Hc, Ht. cbn [negb].
  replace (if outputAppend (lowered g) then Z.lor (Z.lor O_WRONLY O_CREATE) O_APPEND
           else Z.lor O_WRONLY O_CREATE) with (output_flags g) by (destruct g; reflexivity).
  fold log_flags.
  unfold mbind at 1. unfold M_bind at 1. fold (start (lowered g)). rewrite E1.
  unfold mbind at 1. unfold M_bind at 1. unfold emit at 1. cbn [globals events deferred].
  unfold mbind at 1. unfold M_bind at 1. rewrite E2.
  replace (logger_of w (lowered g)) with log by (destruct g; reflexivity).
  replace (scanner_args log (lowered g)) with a by (destruct g; reflexivity).
  unfold_M. cbn [globals events deferred].
  rewrite app_nil_r.
  destruct (scan_NewUdpProbeScanner w a); cbn [globals events deferred].
  - rewrite <- !app_assoc. cbn [app]. reflexivity.
  - rewrite <- !app_assoc. cbn [app].
    destruct (0 <? scan_Length w a targets)%Z; reflexivity.
Qed.

Lemma setup_no_scanner_call evs :
  forallb is_setup evs = true -> List.filter is_scanner_call evs = [].
Proof.
  induction evs as [|e evs IH]; [reflexivity|]. cbn [forallb List.filter].
  intros [He Hevs]%andb_prop. rewrite (IH Hevs).
  destruct e as [| | | ? [] ? | | | | | | | |]; try discriminate; reflexivity.
Qed.

Lemma setup_no_export evs :
  forallb is_setup evs = true -> List.filter is_export evs = [].
Proof.
  induction evs as [|e evs IH]; [reflexivity|]. cbn [forallb List.filter].
  intros [He Hevs]%andb_prop. rewrite (IH Hevs).
  destruct e as [| | | ? [] ? | | | | | | | |]; try discriminate; reflexivity.
Qed.

Lemma filter_Close_scanner (d : list Stream) :
  List.filter is_scanner_call (map EvClose d) = [].
Proof. induction d; [reflexivity | assumption]. Qed.

Lemma filter_Close_export (d : list Stream) :
  List.filter is_export (map EvClose d) = [].
Proof. induction d; [reflexivity | assumption]. Qed.

(** A run that passes validation and builds its scanner: the calls up to
    [Length()], then the export block when there are results. *)
Lemma RunE_scanned w targets g :
  valid g = true ->
  let log := logger_of w g in
  let a := scanner_args log g in
  scan_NewUdpProbeScanner w a = None ->
  let out := output_stream w g (output_flags g) in
  let fmt := resolved_format (ToLower (outputFormat g)) out in
  exists pre post s,
    RunE w targets (start g)
      = (Ret (if (0 <? scan_Length w a targets)%Z && negb (outputPath g =? "")
              then os_OpenFile w (outputPath g) (output_flags g) 420
              else None), s) /\
    events s = pre ++ [EvNewUdpProbeScanner a; EvLog log InfoLevel "Starting scanner";
                       EvScan targets; EvLog log InfoLevel "Scan complete"; EvLength]
                   ++ post /\
    forallb is_setup pre = true /\
    List.filter is_scanner_call post = [] /\
    List.filter is_export post
      = (if (0 <? scan_Length w a targets)%Z then [exporter_for fmt out] else []).
Proof.
  intros Hv log a Hn out fmt.
  destruct (RunE_body_valid w targets g Hv) as (pre & dfr & Hpre & Hrun).
  fold log a in Hrun. rewrite Hn in Hrun. cbv zeta in Hrun.
  unfold RunE, run_deferred. rewrite Hrun. clear Hrun.
  destruct (0 <? scan_Length w a targets)%Z.
  - match goal with |- context [export_results _ _ _ _ _ ?s1] =>
      destruct (export_results_run w (lowered g) log None s1 eq_refl)
        as (evs & d2 & Hex & Hfe & Hfs) end.
    replace (output_stream w (lowered g) (output_flags (lowered g))) with out in *
      by (destruct g; reflexivity).
    replace (output_flags (lowered g)) with (output_flags g) in Hex
      by (destruct g; reflexivity).
    replace (outputPath (lowered g)) with (outputPath g) in Hex
      by (destruct g; reflexivity).
    replace (outputFormat (lowered g)) with (ToLower (outputFormat g)) in *
      by (destruct g; reflexivity).
    fold fmt in Hex, Hfe.
    cbn [globals events deferred] in Hex.
    rewrite Hex. cbn [globals events deferred andb].
    exists pre, (evs ++ map EvClose (d2 ++ dfr)). eexists. split; [|split; [|split; [|split]]].
    + destruct (outputPath g =? ""); reflexivity.
    + cbn [events]. rewrite <- !app_assoc. reflexivity.
    + assumption.
    + rewrite List.filter_app, Hfs, filter_Close_scanner. reflexivity.
    + rewrite List.filter_app, Hfe, filter_Close_export. apply app_nil_r.
  - exists pre, (map EvClose dfr). eexists. split; [|split; [|split; [|split]]].
    + reflexivity.
    + cbn [events]. rewrite <- !app_assoc. reflexivity.
    + assumption.
    + apply filter_Close_scanner.
    + apply filter_Close_export.
Qed.

(** A run that passes validation but whose scanner cannot be built ends
    the process in [log.Fatal], before [Scan]. *)
Lemma RunE_fatal w targets g e :
  valid g = true ->
  let log := logger_of w g in
  let a := scanner_args log g in
  scan_NewUdpProbeScanner w a = Some e ->
  exists pre s,
    RunE w targets (start g) = (Exit 1, s) /\
    events s = pre ++ [EvNewUdpProbeScanner a;
                       EvLog log FatalLevel "Failed to initialize scanner"] /\
    forallb is_setup pre = true.
Proof.
  intros Hv log a Hn.
  destruct (RunE_body_valid w targets g Hv) as (pre & dfr & Hpre & Hrun).
  fold log a in Hrun. rewrite Hn in Hrun.
  unfold RunE, run_deferred. rewrite Hrun.
  exists pre. eexists. split; [reflexivity|]. split; [reflexivity | assumption].
Qed.

(** A run that fails validation returns at once: nothing was called. *)
Lemma RunE_invalid w targets g :
  valid g = false ->
  RunE w targets (start g) =
    (Ret (Some
       (if negb (supported supportedOutputFormats (ToLower (outputFormat g)))
        then "invalid output format: " +:+ ToLower (outputFormat g)
        else if negb (supported supportedLogFormats (logFormat g))
        then "invalid log format: " +:+ logFormat g
        else if (portConcurrency g <? 1)%N || (hostConcurrency g <? 1)%N
        then "concurrency value must be > 0"
        else "timeout value must be > 0")),
     start (lowered g)).
Proof.
  unfold valid. intros Hv. unfold RunE, run_deferred, RunE_body, lowered.
  unfold_M. cbn [globals start events deferred].
  replace (outputFormat (set_outputFormat (ToLower (outputFormat g)) g))
    with (ToLower (outputFormat g)) by (destruct g; reflexivity).
  replace (logFormat (set_outputFormat (ToLower (outputFormat g)) g))
    with (logFormat g) by (destruct g; reflexivity).
  replace (portConcurrency (set_outputFormat (ToLower (outputFormat g)) g))
    with (portConcurrency g) by (destruct g; reflexivity).
  replace (hostConcurrency (set_outputFormat (ToLower (outputFormat g)) g))
    with (hostConcurrency g) by (destruct g; reflexivity).
  replace (timeoutMs (set_outputFormat (ToLower (outputFormat g)) g))
    with (timeoutMs g) by (destruct g; reflexivity).
  destruct (supported supportedOutputFormats (ToLower (outputFormat g))); [|reflexivity].
  destruct (supported supportedLogFormats (logFormat g)); [|reflexivity].
  destruct ((portConcurrency g <? 1)%N || (hostConcurrency g <? 1)%N); [reflexivity|].
  destruct (timeoutMs g <? 1)%N; [reflexivity | discriminate].
Qed.


(** ** Validation comes first

    C1, as stated, does not hold: a zero concurrency or timeout does not
    always give one of the two messages it names.  With host concurrency 0
    and output format "xml" the format check of line 125 returns first,
    with "invalid output format: xml". *)
Lemma RunE_zero_concurrency_other_error :
  ~ (forall (w : World) (targets : list string) (g : Config),
        hostConcurrency g = 0%N \/ portConcurrency g = 0%N \/ timeoutMs g = 0%N ->
        fst (RunE w targets (start g)) = Ret (Some "concurrency value must be > 0") \/
        fst (RunE w targets (start g)) = Ret (Some "timeout value must be > 0")).
Proof.
  intros H.
  specialize (H (mkWorld (fun _ _ _ => None) (fun _ => None) (fun _ _ => 0%Z))
                ["127.0.0.1"]
                (set_hostConcurrency 0 (set_outputFormat "xml" defaults))
                (or_introl eq_refl)).
  vm_compute in H. destruct H as [H | H]; discriminate H.
Qed.

Lemma zero_not_valid g :
  hostConcurrency g = 0%N \/ portConcurrency g = 0%N \/ timeoutMs g = 0%N ->
  valid g = false.
Proof.
  unfold valid. intros [H | [H | H]]; rewrite H; cbn;
    rewrite ?orb_true_r, ?andb_false_r; reflexivity.
Qed.

(** A format the output table accepts has no byte above 127: on it
    [ToLower] is exactly Go's function. *)
Lemma is_ascii_ToLower s : is_ascii (ToLower s) = is_ascii s.
Proof.
  induction s as [|c s IH]; [reflexivity|]. cbn [ToLower is_ascii]. rewrite IH.
  f_equal. destruct c as [[] [] [] [] [] [] [] []]; reflexivity.
Qed.

Lemma accepted_format_is_ascii s :
  supported supportedOutputFormats (ToLower s) = true -> is_ascii s = true.
Proof.
  unfold supported, supportedOutputFormats. intros H.
  destruct (list_to_map _ !! ToLower s) as [b|] eqn:Hl; [|discriminate].
  apply elem_of_list_to_map_2 in Hl. rewrite <- is_ascii_ToLower.
  repeat (apply elem_of_cons in Hl as [Hl | Hl];
          [injection Hl as -> _; reflexivity|]).
  inversion Hl.
Qed.

(** C1, amended.  When hostConcurrency, portConcurrency or timeoutMs is
    0, RunE returns an error and has called nothing by then: neither
    NewUdpProbeScanner nor Scan (the list of calls is empty).  The error
    is that of the first failing check.  When the output format is
    accepted it is the log-format error if the log format is not, else
    "concurrency value must be > 0" for a zero concurrency, else "timeout
    value must be > 0".  When the output format is not accepted it is
    "invalid output format: " followed by the lower-cased format (spelled
    out here for an ASCII format).
    Conversely, when validation passes and the scanner's constructor
    returns an error, the run ends in [log.Fatal] with exit status 1, the
    constructor being the only scanner call made. *)
Theorem RunE_rejects_zero_settings (w : World) (targets : list string) (g : Config) :
  (hostConcurrency g = 0%N \/ portConcurrency g = 0%N \/ timeoutMs g = 0%N ->
   exists e,
     fst (RunE w targets (start g)) = Ret (Some e) /\
     events (snd (RunE w targets (start g))) = [] /\
     (supported supportedOutputFormats (ToLower (outputFormat g)) = true ->
      e = if negb (supported supportedLogFormats (logFormat g))
          then "invalid log format: " +:+ logFormat g
          else if (portConcurrency g =? 0)%N || (hostConcurrency g =? 0)%N
          then "concurrency value must be > 0"
          else "timeout value must be > 0") /\
     (supported supportedOutputFormats (ToLower (outputFormat g)) = false ->
      (exists lowered_format, e = "invalid output format: " +:+ lowered_format) /\
      (is_ascii (outputFormat g) = true ->
       e = "invalid output format: " +:+ ToLower (outputFormat g)))) /\
  (valid g = true ->
   forall e, scan_NewUdpProbeScanner w (scanner_args (logger_of w g) g) = Some e ->
     fst (RunE w targets (start g)) = Exit 1 /\
     last (events (snd (RunE w targets (start g))))
       = Some (EvLog (logger_of w g) FatalLevel "Failed to initialize scanner") /\
     List.filter is_scanner_call (events (snd (RunE w targets (start g))))
       = [EvNewUdpProbeScanner (scanner_args (logger_of w g) g)]).
Proof.
  split.
  - intros Hz. rewrite (RunE_invalid w targets g (zero_not_valid g Hz)).
    eexists. split; [reflexivity|]. split; [reflexivity|].
    replace (portConcurrency g <? 1)%N with (portConcurrency g =? 0)%N
      by (destruct (N.eqb_spec (portConcurrency g) 0), (N.ltb_spec (portConcurrency g) 1); lia).
    replace (hostConcurrency g <? 1)%N with (hostConcurrency g =? 0)%N
      by (destruct (N.eqb_spec (hostConcurrency g) 0), (N.ltb_spec (hostConcurrency g) 1); lia).
    split; intros ->; cbn [negb]; [reflexivity|].
    split; [eexists; reflexivity | intros _; reflexivity].
  - intros Hv e He.
    destruct (RunE_fatal w targets g e Hv He) as (pre & s & Hrun & Hev & Hpre).
    rewrite Hrun. cbn [fst snd]. rewrite Hev. split; [reflexivity|]. split.
    + rewrite last_app. reflexivity.
    + rewrite List.filter_app, (setup_no_scanner_call pre Hpre). reflexivity.
Qed.

(** The amended C1 at work: a zero timeout with the default formats, a
    zero concurrency with format "XML", and a constructor that fails. *)
Lemma RunE_rejects_zero_settings_witness :
  (exists e,
     fst (RunE quiet_world ["127.0.0.1"] (start (set_timeoutMs 0 defaults))) = Ret (Some e) /\
     events (snd (RunE quiet_world ["127.0.0.1"] (start (set_timeoutMs 0 defaults)))) = [] /\
     e = "timeout value must be > 0") /\
  (exists e,
     fst (RunE quiet_world ["127.0.0.1"]
            (start (set_hostConcurrency 0 (set_outputFormat "XML" defaults))))
       = Ret (Some e) /\
     e = "invalid output format: xml") /\
  fst (RunE failing_scanner_world ["127.0.0.1"] (start defaults)) = Exit 1.
Proof.
  split; [|split].
  - destruct (proj1 (RunE_rejects_zero_settings quiet_world ["127.0.0.1"]
                       (set_timeoutMs 0 defaults)))
      as (e & He & Hev & Hok & _).
    + right; right; reflexivity.
    + exists e. split; [exact He|]. split; [exact Hev|]. apply Hok. reflexivity.
  - destruct (proj1 (RunE_rejects_zero_settings quiet_world ["127.0.0.1"]
                       (set_hostConcurrency 0 (set_outputFormat "XML" defaults))))
      as (e & He & _ & _ & Hbad).
    + left; reflexivity.
    + exists e. split; [exact He|]. apply Hbad; reflexivity.
  - apply (proj2 (RunE_rejects_zero_settings failing_scanner_world ["127.0.0.1"] defaults)
             eq_refl "no route" eq_refl).
Defined.

(** ** Export

    C6.  In a run that passes validation and builds its scanner, every
    exporter call comes after the call of Scan; there is none when
    Length() is not positive, and otherwise exactly one: SaveJson for
    "json" and "jsonl", SaveYAML for "yaml" and "yml", SaveTable for the
    other formats, where "auto" has become "pretty" on standard output
    (no output path, or the file could not be opened) and "json" on an
    opened output file. *)
Theorem RunE_export_choice (w : World) (targets : list string) (g : Config) :
  valid g = true ->
  scan_NewUdpProbeScanner w (scanner_args (logger_of w g) g) = None ->
  let out := output_stream w g (output_flags g) in
  let fmt := resolved_format (ToLower (outputFormat g)) out in
  exists pre post,
    events (snd (RunE w targets (start g))) = pre ++ EvScan targets :: post /\
    List.filter is_export pre = [] /\
    List.filter is_export post
      = if (0 <? scan_Length w (scanner_args (logger_of w g) g) targets)%Z
        then [exporter_for fmt out]
        else [].
Proof.
  intros Hv Hn out fmt.
  destruct (RunE_scanned w targets g Hv Hn) as (pre & post & s & Hrun & Hev & Hpre & _ & Hex).
  rewrite Hrun. cbn [snd]. rewrite Hev.
  exists (pre ++ [EvNewUdpProbeScanner (scanner_args (logger_of w g) g);
                  EvLog (logger_of w g) InfoLevel "Starting scanner"]),
         ([EvLog (logger_of w g) InfoLevel "Scan complete"; EvLength] ++ post).
  split; [rewrite <- !app_assoc; reflexivity|]. split.
  - rewrite List.filter_app, (setup_no_export pre Hpre). reflexivity.
  - cbn [app List.filter is_export]. exact Hex.
Qed.

(** C6 at work: two results and [-o out] give one SaveJson to the file. *)
Lemma RunE_export_choice_witness :
  exists pre post,
    events (snd (RunE results_world ["127.0.0.1"]
                   (start (set_outputPath "out" defaults))))
      = pre ++ EvScan ["127.0.0.1"] :: post /\
    List.filter is_export pre = [] /\
    List.filter is_export post = [EvSaveJson (File "out")].
Proof.
  exact (RunE_export_choice results_world ["127.0.0.1"] (set_outputPath "out" defaults)
           eq_refl eq_refl).
Defined.

(** ** Files that cannot be opened

    When the output file cannot be opened, the scan and one export to
    standard output still happen, and then RunE returns the error of
    [os.OpenFile]: the named result [err] still holds it at the final
    [return]. *)
Lemma RunE_output_failure w targets g e :
  valid g = true ->
  scan_NewUdpProbeScanner w (scanner_args (logger_of w g) g) = None ->
  (0 < scan_Length w (scanner_args (logger_of w g) g) targets)%Z ->
  outputPath g <> "" ->
  os_OpenFile w (outputPath g) (output_flags g) 420 = Some e ->
  fst (RunE w targets (start g)) = Ret (Some e) /\
  List.filter is_scanner_call (events (snd (RunE w targets (start g))))
    = [EvNewUdpProbeScanner (scanner_args (logger_of w g) g); EvScan targets] /\
  List.filter is_export (events (snd (RunE w targets (start g))))
    = [exporter_for (resolved_format (ToLower (outputFormat g)) Stdout) Stdout].
Proof.
  intros Hv Hn Hlen Hpath Hopen.
  destruct (RunE_scanned w targets g Hv Hn) as (pre & post & s & Hrun & Hev & Hpre & Hsc & Hex).
  rewrite Hrun. cbn [fst snd]. rewrite Hev.
  apply Z.ltb_lt in Hlen. rewrite Hlen in *.
  apply String.eqb_neq in Hpath.
  unfold output_stream in Hex. rewrite Hpath, Hopen in *. cbn [negb andb].
  split; [reflexivity|]. split.
  - rewrite !List.filter_app, (setup_no_scanner_call pre Hpre), Hsc. reflexivity.
  - rewrite !List.filter_app, (setup_no_export pre Hpre), Hex. reflexivity.
Qed.

(** C7, at a failing input.  With no file writable, [-o /proc/out.json]
    and one result: the scanner is built, Scan runs and SaveTable writes
    "pretty" output to standard output, but RunE then returns the open
    error and Execute exits with status 1.  The same failure on the log
    file ([-O /proc/udpz.log]) ends with no error: there the constructor's
    result overwrites [err]. *)
Theorem RunE_returns_output_open_error :
  let out_inv := mkInvocation [("output", VString "/proc/out.json")] ["127.0.0.1"] in
  let log_inv := mkInvocation [("log", VString "/proc/udpz.log")] ["127.0.0.1"] in
  fst (rootCmd_Execute unwritable_world out_inv)
    = Ret (Some "open /proc/out.json: permission denied") /\
  fst (Execute unwritable_world out_inv) = Exit 1 /\
  List.filter (fun e => is_scanner_call e || is_export e)
    (events (snd (rootCmd_Execute unwritable_world out_inv)))
    = [EvNewUdpProbeScanner (scanner_args (mkLogger Stderr true) defaults);
       EvScan ["127.0.0.1"]; EvSaveTable "pretty" Stdout] /\
  fst (rootCmd_Execute unwritable_world log_inv) = Ret None /\
  fst (Execute unwritable_world log_inv) = Ret tt.
Proof. vm_compute. repeat split; reflexivity. Qed.

(** ** The SOCKS5 placeholder *)

Lemma flag_set_keeps_socks5 f v g g' :
  In f command_flags -> flag_set f v g = Some g' -> socks5_unset g -> socks5_unset g'.
Proof.
  unfold command_flags, init, socks5_unset. cbn [In app]. intros Hin Hset Hg.
  repeat (destruct Hin as [<- | Hin]; [
    destruct v as [x | x | x]; cbn in Hset; try discriminate;
    try (destruct (x <? 2 ^ 64)%N; [|discriminate]);
    injection Hset as <-; destruct g; exact Hg |]).
  destruct Hin.
Qed.

Lemma find_flag_In flags k f : find_flag flags k = Some f -> In f flags.
Proof. unfold find_flag. intros H. apply find_some in H. tauto. Qed.

Lemma ParseFlags_keeps_socks5 gs : forall g g',
  ParseFlags command_flags gs g = inr g' -> socks5_unset g -> socks5_unset g'.
Proof.
  induction gs as [| [k v] gs IH]; intros g g' Hp Hg; cbn [ParseFlags] in Hp.
  - injection Hp as <-. exact Hg.
  - destruct (find_flag command_flags k) as [f|] eqn:Hf; [|discriminate].
    destruct (flag_set f v g) as [g1|] eqn:Hs; [|discriminate].
    apply (IH g1 g' Hp). eapply flag_set_keeps_socks5; eauto using find_flag_In.
Qed.

Lemma RunE_scanner_args w targets g a :
  In (EvNewUdpProbeScanner a) (events (snd (RunE w targets (start g)))) ->
  a = scanner_args (logger_of w g) g.
Proof.
  intros Hin.
  assert (Hf : In (EvNewUdpProbeScanner a)
                 (List.filter is_scanner_call (events (snd (RunE w targets (start g)))))).
  { apply filter_In. split; [exact Hin | reflexivity]. }
  clear Hin. destruct (valid g) eqn:Hv.
  - destruct (scan_NewUdpProbeScanner w (scanner_args (logger_of w g) g)) as [e|] eqn:Hn.
    + destruct (RunE_fatal w targets g e Hv Hn) as (pre & s & Hrun & Hev & Hpre).
      rewrite Hrun in Hf. cbn [snd] in Hf.
      rewrite Hev, List.filter_app, (setup_no_scanner_call pre Hpre) in Hf.
      cbn in Hf. destruct Hf as [Hf | []]. congruence.
    + destruct (RunE_scanned w targets g Hv Hn)
        as (pre & post & s & Hrun & Hev & Hpre & Hsc & _).
      rewrite Hrun in Hf. cbn [snd] in Hf.
      rewrite Hev, !List.filter_app, (setup_no_scanner_call pre Hpre), Hsc in Hf.
      cbn in Hf. destruct Hf as [Hf | [Hf | []]]; congruence.
  - rewrite (RunE_invalid w targets g Hv) in Hf. destruct Hf.
Qed.

(** C8.  Whatever the command line, every call of NewUdpProbeScanner gets
    the empty string as socks5Address, socks5User and socks5Password and
    3000 as socks5Timeout; none of the names "socks", "S", "socks-user",
    "socks-pass", "socks-timeout" is a registered flag. *)
Theorem socks5_is_placeholder (w : World) (inv : Invocation) (a : ScannerArgs) :
  In (EvNewUdpProbeScanner a) (events (snd (rootCmd_Execute w inv))) ->
  arg_socks5Address a = "" /\ arg_socks5User a = "" /\ arg_socks5Password a = "" /\
  arg_socks5Timeout a = 3000%Z /\
  Forall (fun k => find_flag init k = None)
    ["socks"; "S"; "socks-user"; "socks-pass"; "socks-timeout"].
Proof.
  unfold rootCmd_Execute. intros Hin.
  assert (Hreg : Forall (fun k => find_flag init k = None)
                   ["socks"; "S"; "socks-user"; "socks-pass"; "socks-timeout"]).
  { repeat constructor. }
  destruct (ParseFlags command_flags (given inv) defaults) as [e | g] eqn:Hp;
    [destruct Hin|].
  destruct (help_requested inv); [destruct Hin|].
  destruct (version_requested inv); [destruct Hin|].
  destruct (MinimumNArgs 1 (positional inv)); [destruct Hin|].
  apply RunE_scanner_args in Hin. subst a.
  destruct (ParseFlags_keeps_socks5 _ _ _ Hp) as (H1 & H2 & H3 & H4).
  { repeat split. }
  cbn [scanner_args arg_socks5Address arg_socks5User arg_socks5Password arg_socks5Timeout].
  rewrite H1, H2, H3, H4. repeat split; try reflexivity. exact Hreg.
Qed.

(** C8 at work: the call made by [udpz 127.0.0.1]. *)
Lemma socks5_is_placeholder_witness :
  let a := scanner_args (mkLogger Stderr true) defaults in
  arg_socks5Address a = "" /\ arg_socks5User a = "" /\ arg_socks5Password a = "" /\
  arg_socks5Timeout a = 3000%Z /\
  Forall (fun k => find_flag init k = None)
    ["socks"; "S"; "socks-user"; "socks-pass"; "socks-timeout"].
Proof.
  apply (socks5_is_placeholder quiet_world (mkInvocation [] ["127.0.0.1"])).
  vm_compute. tauto.
Defined.

(** ** Letter case of the two formats *)

Lemma lower_byte_idem c : lower_byte (lower_byte c) = lower_byte c.
Proof. destruct c as [[] [] [] [] [] [] [] []]; reflexivity. Qed.

Lemma ToLower_idem s : ToLower (ToLower s) = ToLower s.
Proof.
  induction s as [|c s IH]; [reflexivity|].
  cbn [ToLower]. rewrite lower_byte_idem, IH. reflexivity.
Qed.

Lemma lowered_set_outputFormat s g :
  lowered (set_outputFormat s g) = set_outputFormat (ToLower s) g.
Proof. destruct g; reflexivity. Qed.

Lemma lowered_idem g : lowered (lowered g) = lowered g.
Proof.
  unfold lowered. destruct g. simpl. rewrite ToLower_idem. reflexivity.
Qed.

Lemma RunE_reads_lowered w targets g :
  RunE w targets (start g) = RunE w targets (start (lowered g)).
Proof.
  unfold RunE, run_deferred, RunE_body.
  unfold mbind at 1 2 3. unfold M_bind at 1 2 3.
  unfold get_globals at 1 2. unfold put_globals at 1.
  cbn [globals start events deferred]. fold (lowered g).
  symmetry.
  unfold mbind at 1 2 3. unfold M_bind at 1 2 3.
  unfold get_globals at 1 2. unfold put_globals at 1.
  cbn [globals start events deferred]. fold (lowered (lowered g)).
  rewrite lowered_idem. reflexivity.
Qed.

(** C9.  The output format is read without regard to letter case: two
    values with the same lower-case form give the same run.  The log
    format is looked up as given: with both formats "JSON" the run returns
    "invalid log format: JSON", so "JSON" passed as output format and
    failed as log format, while "json" passes as log format. *)
Theorem format_case_handling :
  (forall (w : World) (targets : list string) (g : Config) (s : string),
      ToLower s = ToLower (outputFormat g) ->
      RunE w targets (start (set_outputFormat s g)) = RunE w targets (start g)) /\
  (forall (w : World) (targets : list string) (g : Config),
      outputFormat g = "JSON" -> logFormat g = "JSON" ->
      fst (RunE w targets (start g)) = Ret (Some "invalid log format: JSON")) /\
  valid (set_outputFormat "JSON" defaults) = true /\
  valid (set_logFormat "JSON" defaults) = false /\
  valid (set_logFormat "json" defaults) = true.
Proof.
  split; [|split; [|repeat split]].
  - intros w targets g s Hs.
    rewrite (RunE_reads_lowered w targets (set_outputFormat s g)).
    rewrite (RunE_reads_lowered w targets g).
    rewrite lowered_set_outputFormat, Hs. reflexivity.
  - intros w targets g Ho Hl.
    assert (Hv : valid g = false).
    { unfold valid. rewrite Ho, Hl. reflexivity. }
    rewrite (RunE_invalid w targets g Hv), Ho, Hl. reflexivity.
Qed.

(** C9 at work: "YAML" runs as "yaml" does; "JSON" fails as log
    format. *)
Lemma format_case_handling_witness :
  RunE quiet_world ["127.0.0.1"] (start (set_outputFormat "YAML" defaults))
    = RunE quiet_world ["127.0.0.1"] (start (set_outputFormat "yaml" defaults)) /\
  fst (RunE quiet_world ["127.0.0.1"]
         (start (set_logFormat "JSON" (set_outputFormat "JSON" defaults))))
    = Ret (Some "invalid log format: JSON").
Proof.
  split.
  - apply (proj1 format_case_handling quiet_world ["127.0.0.1"]
             (set_outputFormat "yaml" defaults) "YAML"). reflexivity.
  - apply (proj1 (proj2 format_case_handling) quiet_world ["127.0.0.1"]); reflexivity.
Defined.

(** ** Positional arguments *)

Lemma RunE_scan_targets w targets g ts :
  In (EvScan ts) (events (snd (RunE w targets (start g)))) -> ts = targets.
Proof.
  intros Hin.
  assert (Hf : In (EvScan ts)
                 (List.filter is_scanner_call (events (snd (RunE w targets (start g)))))).
  { apply filter_In. split; [exact Hin | reflexivity]. }
  clear Hin. destruct (valid g) eqn:Hv.
  - destruct (scan_NewUdpProbeScanner w (scanner_args (logger_of w g) g)) as [e|] eqn:Hn.
    + destruct (RunE_fatal w targets g e Hv Hn) as (pre & s & Hrun & Hev & Hpre).
      rewrite Hrun in Hf. cbn [snd] in Hf.
      rewrite Hev, List.filter_app, (setup_no_scanner_call pre Hpre) in Hf.
      cbn in Hf. destruct Hf as [Hf | []]. discriminate.
    + destruct (RunE_scanned w targets g Hv Hn)
        as (pre & post & s & Hrun & Hev & Hpre & Hsc & _).
      rewrite Hrun in Hf. cbn [snd] in Hf.
      rewrite Hev, !List.filter_app, (setup_no_scanner_call pre Hpre), Hsc in Hf.
      cbn in Hf. destruct Hf as [Hf | [Hf | []]]; congruence.
  - rewrite (RunE_invalid w targets g Hv) in Hf. destruct Hf.
Qed.

(** C10, as stated, does not hold: [udpz --version] has no positional
    argument and does not fail.  cobra prints the version and returns no
    error before [Args] is consulted, and Execute returns. *)
Lemma version_needs_no_target :
  ~ (forall (w : World) (inv : Invocation),
        positional inv = [] ->
        exists e, fst (rootCmd_Execute w inv) = Ret (Some e)).
Proof.
  intros H.
  destruct (H quiet_world (mkInvocation [("version", VBool true)] []) eq_refl)
    as [e He].
  vm_compute in He. discriminate He.
Qed.

(** C10, amended.  Without positional arguments, and with neither the
    help nor the version flag set, the command fails before RunE runs:
    an error is returned, nothing has been called, and Execute exits with
    status 1; when the flags parse, the error is that of MinimumNArgs(1).
    With the help or the version flag set (and flags that parse) the
    command returns no error, whatever the positional arguments, and RunE
    does not run.  In every case Scan is only ever called with the
    positional arguments, and these are not empty. *)
Theorem Execute_requires_a_target (w : World) (inv : Invocation) :
  (positional inv = [] ->
   help_requested inv = false ->
   version_requested inv = false ->
   exists e,
     fst (rootCmd_Execute w inv) = Ret (Some e) /\
     events (snd (rootCmd_Execute w inv)) = [] /\
     fst (Execute w inv) = Exit 1 /\
     (forall g, ParseFlags command_flags (given inv) defaults = inr g ->
                e = "requires at least 1 arg(s), only received 0")) /\
  (forall g,
      ParseFlags command_flags (given inv) defaults = inr g ->
      help_requested inv = true \/ version_requested inv = true ->
      fst (rootCmd_Execute w inv) = Ret None /\
      events (snd (rootCmd_Execute w inv)) = [] /\
      fst (Execute w inv) = Ret tt) /\
  (forall targets,
      In (EvScan targets) (events (snd (rootCmd_Execute w inv))) ->
      targets = positional inv /\ targets <> []).
Proof.
  split; [|split].
  - intros Hpos Hh Hv. unfold Execute, rootCmd_Execute. rewrite Hpos, Hh, Hv.
    destruct (ParseFlags command_flags (given inv) defaults) as [e | g].
    + exists e. repeat split. intros g Hg. discriminate Hg.
    + eexists. repeat split.
  - intros g Hg Hreq. unfold Execute, rootCmd_Execute. rewrite Hg.
    destruct (help_requested inv); [repeat split|].
    destruct (version_requested inv); [repeat split|].
    destruct Hreq; discriminate.
  - intros targets. unfold rootCmd_Execute.
    destruct (ParseFlags command_flags (given inv) defaults) as [e | g]; [intros []|].
    destruct (help_requested inv); [intros []|].
    destruct (version_requested inv); [intros []|].
    destruct (positional inv) as [| t ts] eqn:Hpos; [intros []|].
    cbn [MinimumNArgs length Nat.ltb Nat.leb].
    intros Hin. apply RunE_scan_targets in Hin. subst targets. split; [reflexivity | discriminate].
Qed.

(** C10, amended, at work: [udpz -t 500] is refused, [udpz -v] returns,
    and the Scan of [udpz 127.0.0.1] has a target. *)
Lemma Execute_requires_a_target_witness :
  (exists e,
     fst (rootCmd_Execute quiet_world (mkInvocation [("timeout", VUint 500)] [])) = Ret (Some e) /\
     e = "requires at least 1 arg(s), only received 0") /\
  fst (Execute quiet_world (mkInvocation [("v", VBool true)] [])) = Ret tt /\
  ["127.0.0.1"] <> [].
Proof.
  split; [|split].
  - destruct (proj1 (Execute_requires_a_target quiet_world
                       (mkInvocation [("timeout", VUint 500)] [])) eq_refl eq_refl eq_refl)
      as (e & He & _ & _ & Hmsg).
    exists e. split; [exact He|]. eapply Hmsg. reflexivity.
  - apply (proj1 (proj2 (Execute_requires_a_target quiet_world
                           (mkInvocation [("v", VBool true)] [])))
             defaults eq_refl (or_intror eq_refl)).
  - apply (proj2 (proj2 (Execute_requires_a_target quiet_world
                           (mkInvocation [] ["127.0.0.1"])))
             ["127.0.0.1"]).
    vm_compute. tauto.
Defined.

(** * Properties of the engine model *)


(** ** The port probe *)

Lemma run_terminal fuel r env p :
  Prober.terminal (Prober.state p) = true -> Prober.run fuel r env p = Some p.
Proof. intros H. destruct fuel; cbn [Prober.run]; rewrite H; reflexivity. Qed.

Lemma run_silence r env :
  (forall k, (1 <= k <= r + 1)%nat -> env k = Prober.Timeout) ->
  forall n a st fuel,
    st = Prober.AwaitingResponse \/ st = Prober.Retrying ->
    (1 <= a)%nat -> (a + n = r + 1)%nat -> (n + 1 <= fuel)%nat ->
    Prober.run fuel r env (Prober.mkProbe st a a)
      = Some (Prober.mkProbe Prober.OpenOrFiltered (r + 1) (r + 1)).
Proof.
  intros Henv n. induction n as [|n IH]; intros a st fuel Hst Ha Han Hfuel.
  - destruct fuel as [|fuel]; [lia|].
    assert (a = r + 1)%nat as -> by lia.
    cbn [Prober.run Prober.state].
    replace (Prober.terminal st) with false by (destruct Hst; subst; reflexivity).
    unfold Prober.step. cbn [Prober.state Prober.attempts Prober.sent].
    rewrite Henv by lia.
    replace (r + 1 <? r + 1)%nat with false by (symmetry; apply Nat.ltb_ge; lia).
    destruct Hst; subst; apply run_terminal; reflexivity.
  - destruct fuel as [|fuel]; [lia|].
    cbn [Prober.run Prober.state].
    replace (Prober.terminal st) with false by (destruct Hst; subst; reflexivity).
    unfold Prober.step. cbn [Prober.state Prober.attempts Prober.sent].
    rewrite Henv by lia.
    replace (a <? r + 1)%nat with true by (symmetry; apply Nat.ltb_lt; lia).
    destruct Hst; subst; apply IH; auto; lia.
Qed.

(** C2.  With r retransmissions configured, a port whose waits all end in
    a timeout (no reply, no rejection) is sent exactly r + 1 datagrams,
    the attempts counter stands at r + 1, and the probe ends as
    OpenOrFiltered; r + 2 transitions suffice. *)
Theorem silent_port_gets_all_attempts (r fuel : nat) (env : nat -> Prober.Signal) :
  (forall k, (1 <= k <= r + 1)%nat -> env k = Prober.Timeout) ->
  (r + 2 <= fuel)%nat ->
  Prober.probe fuel r env
    = Some (Prober.mkProbe Prober.OpenOrFiltered (r + 1) (r + 1)).
Proof.
  intros Henv Hfuel. unfold Prober.probe, Prober.initial.
  destruct fuel as [|fuel]; [lia|].
  cbn [Prober.run Prober.state Prober.terminal]. unfold Prober.step.
  cbn [Prober.state Prober.sent].
  apply (run_silence r env Henv r); auto; lia.
Qed.

(** C2 at work: two retransmissions, three datagrams. *)
Lemma silent_port_gets_all_attempts_witness :
  Prober.probe 4 2 (fun _ => Prober.Timeout)
    = Some (Prober.mkProbe Prober.OpenOrFiltered 3 3).
Proof.
  apply (silent_port_gets_all_attempts 2 4 (fun _ => Prober.Timeout)).
  - intros k Hk. reflexivity.
  - lia.
Defined.

(** ** Resolution *)

Section Resolution.

Variable parse_literal : string -> option string.
Variable system_lookup : string -> option (list string).

Local Abbreviation resolve_target := (Session.resolve_target parse_literal system_lookup).
Local Abbreviation resolve_targets := (Session.resolve_targets parse_literal system_lookup).
Local Abbreviation resolvable := (Session.resolvable parse_literal system_lookup).

Lemma fold_resolve scanAll targets : forall s,
  let s' := fold_left (resolve_target scanAll) targets s in
  map Session.hostname (Session.hosts s')
    = map Session.hostname (Session.hosts s) ++ List.filter (resolvable scanAll) targets /\
  map Session.failed_target (Session.resolution_errors s')
    = map Session.failed_target (Session.resolution_errors s)
      ++ List.filter (fun t => negb (resolvable scanAll t)) targets.
Proof.
  induction targets as [|t targets IH]; intros s; cbn [fold_left List.filter].
  - rewrite !app_nil_r. split; reflexivity.
  - destruct (IH (resolve_target scanAll s t)) as [Hh He]. cbv zeta.
    rewrite Hh, He. clear IH Hh He.
    unfold Session.resolve_target, Session.resolvable.
    destruct (Session.resolve parse_literal system_lookup scanAll t) as [addrs | e] eqn:Hr;
      cbn [Session.hosts Session.resolution_errors negb].
    + rewrite map_app, <- app_assoc. split; reflexivity.
    + rewrite map_app, <- app_assoc. split; [reflexivity|].
      unfold Session.resolve in Hr.
      destruct (parse_literal t); [discriminate|].
      destruct (system_lookup t) as [[|]|]; try discriminate;
        injection Hr as <-; reflexivity.
Qed.

Lemma fold_resolve_from scanAll targets : forall s,
  Session.hosts (fold_left (resolve_target scanAll) targets s)
  = Session.hosts s
    ++ Session.hosts (fold_left (resolve_target scanAll) targets Session.empty).
Proof.
  induction targets as [|t targets IH]; intros s; cbn [fold_left].
  - cbn. rewrite app_nil_r. reflexivity.
  - rewrite (IH (resolve_target scanAll s t)).
    rewrite (IH (resolve_target scanAll Session.empty t)).
    unfold Session.resolve_target.
    destruct (Session.resolve parse_literal system_lookup scanAll t);
      cbn [Session.hosts Session.empty app]; rewrite <- ?app_assoc; reflexivity.
Qed.

Lemma fold_resolve_hosts scanAll targets : forall s,
  Session.hosts (fold_left (resolve_target scanAll) targets s)
  = Session.hosts s
    ++ Session.hosts (fold_left (resolve_target scanAll)
                        (List.filter (resolvable scanAll) targets) Session.empty).
Proof.
  induction targets as [|t targets IH]; intros s; cbn [fold_left List.filter].
  - cbn. rewrite app_nil_r. reflexivity.
  - rewrite IH. unfold Session.resolvable at 2.
    destruct (Session.resolve parse_literal system_lookup scanAll t) as [addrs | e] eqn:Hr.
    + cbn [fold_left]. rewrite (fold_resolve_from scanAll _ (resolve_target scanAll Session.empty t)).
      unfold Session.resolve_target. rewrite Hr. cbn [Session.hosts Session.empty app].
      rewrite <- app_assoc. reflexivity.
    + unfold Session.resolve_target. rewrite Hr. reflexivity.
Qed.

(** C3.  Over a batch of targets, the resolved hosts are, in order, one
    per resolvable target, and the recorded resolution errors one per
    unresolvable target; the hosts are those the resolvable targets alone
    would give, so a failure takes nothing away from the other
    targets. *)
Theorem resolution_failures_are_skipped (scanAll : bool) (targets : list string) :
  let s := resolve_targets scanAll targets in
  map Session.hostname (Session.hosts s) = List.filter (resolvable scanAll) targets /\
  map Session.failed_target (Session.resolution_errors s)
    = List.filter (fun t => negb (resolvable scanAll t)) targets /\
  Session.hosts s
    = Session.hosts (resolve_targets scanAll (List.filter (resolvable scanAll) targets)).
Proof.
  cbv zeta. unfold Session.resolve_targets.
  destruct (fold_resolve scanAll targets Session.empty) as [Hh He].
  split; [exact Hh|]. split; [exact He|].
  rewrite fold_resolve_hosts. reflexivity.
Qed.

End Resolution.


(** ** The result store *)

Lemma compare_refl (s : string) : String.compare s s = Eq.
Proof.
  induction s as [|c s IH]; [reflexivity|]. cbn [String.compare].
  unfold Ascii.compare. rewrite N.compare_refl. exact IH.
Qed.

Lemma compare_Lt_le s1 s2 : String.compare s1 s2 = Lt -> String.le s1 s2 /\ s1 <> s2.
Proof.
  intros H. split.
  - unfold String.le, String.leb. rewrite H. exact I.
  - intros ->. rewrite compare_refl in H. discriminate.
Qed.

Lemma le_ne_compare_Lt s1 s2 : String.le s1 s2 -> s1 <> s2 -> String.compare s1 s2 = Lt.
Proof.
  unfold String.le, String.leb. intros Hle Hne.
  destruct (String.compare s1 s2) eqn:Hc; [|reflexivity|destruct Hle].
  apply String.compare_eq_iff in Hc. contradiction.
Qed.

Lemma key_le_spec h1 p1 h2 p2 :
  key_le (h1, p1) (h2, p2) <->
  (String.le h1 h2 /\ h1 <> h2) \/ (h1 = h2 /\ (p1 <= p2)%N).
Proof.
  unfold key_le, ResultStore.key_leb. cbn [fst snd]. split.
  - destruct (String.compare h1 h2) eqn:Hc; intros H.
    + right. split; [apply String.compare_eq_iff, Hc | apply N.leb_le, H].
    + left. apply compare_Lt_le, Hc.
    + discriminate.
  - intros [[Hle Hne] | [-> Hp]].
    + rewrite (le_ne_compare_Lt _ _ Hle Hne). reflexivity.
    + rewrite compare_refl. apply N.leb_le, Hp.
Qed.

#[local] Instance key_le_trans : Transitive key_le.
Proof.
  intros [h1 p1] [h2 p2] [h3 p3]. rewrite !key_le_spec.
  intros [[H12 N12] | [-> P12]] [[H23 N23] | [-> P23]].
  - left. split; [etrans; eassumption|].
    intros ->. apply N12. apply (anti_symm String.le); assumption.
  - left. split; assumption.
  - left. split; assumption.
  - right. split; [reflexivity | lia].
Qed.

#[local] Instance key_le_antisym : AntiSymm (=) key_le.
Proof.
  intros [h1 p1] [h2 p2]. rewrite !key_le_spec.
  intros [[H12 N12] | [-> P12]] [[H21 N21] | [E P21]].
  - exfalso. apply N12. apply (anti_symm String.le); assumption.
  - congruence.
  - contradiction.
  - f_equal. lia.
Qed.


#[local] Instance result_le_trans : Transitive result_le.
Proof. intros r1 r2 r3. unfold result_le, ResultStore.result_leb. apply key_le_trans. Qed.














(** ** The worker pool *)

Lemma step_pool_ok hc pc s a s' :
  pool_ok hc pc s -> Pool.step hc pc s a = Some s' -> pool_ok hc pc s'.
Proof.
  unfold pool_ok. intros [Hlen Hall] Hstep. destruct a as [| i | i | i]; cbn [Pool.step] in Hstep.
  - destruct (length s <? hc)%nat eqn:Hlt; [|discriminate]. injection Hstep as <-.
    apply Nat.ltb_lt in Hlt. rewrite length_app. cbn [length]. split; [lia|].
    apply Forall_app. split; [exact Hall|]. repeat constructor. lia.
  - destruct (s !! i) as [n|] eqn:Hn; [|discriminate].
    destruct (n <? pc)%nat eqn:Hlt; [|discriminate]. injection Hstep as <-.
    apply Nat.ltb_lt in Hlt. rewrite length_insert. split; [exact Hlen|].
    apply Forall_insert; [exact Hall | lia].
  - destruct (s !! i) as [[|n]|] eqn:Hn; try discriminate. injection Hstep as <-.
    rewrite length_insert. split; [exact Hlen|].
    apply Forall_insert; [exact Hall|].
    pose proof (Forall_lookup_1 _ _ _ _ Hall Hn) as Hle. cbn in Hle. lia.
  - destruct (s !! i) as [[|n]|] eqn:Hn; try discriminate. injection Hstep as <-.
    split; [|apply Forall_delete, Hall].
    pose proof (length_delete s i) as Hd. 
    unfold is_Some in Hd. rewrite Hd by eauto. lia.
Qed.

Lemma run_pool_ok hc pc schedule : pool_ok hc pc (Pool.run hc pc schedule).
Proof.
  unfold Pool.run.
  assert (H : forall s, pool_ok hc pc s ->
            pool_ok hc pc (fold_left (fun s a => default s (Pool.step hc pc s a)) schedule s)).
  { induction schedule as [|a schedule IH]; intros s Hs; cbn [fold_left]; [exact Hs|].
    apply IH. destruct (Pool.step hc pc s a) as [s'|] eqn:Hstep; cbn [default].
    - eapply step_pool_ok; eassumption.
    - exact Hs. }
  apply H. split; [cbn; lia | constructor].
Qed.

Lemma sum_list_bound pc (s : list nat) :
  Forall (fun n => (n <= pc)%nat) s -> (sum_list s <= length s * pc)%nat.
Proof.
  induction 1 as [|n s Hn Hs IH]; [cbn; lia|].
  change (sum_list (n :: s)) with (n + sum_list s)%nat.
  cbn [length]. lia.
Qed.

(** C5.  After any sequence of pool actions, cut at any point, at most
    hostConcurrency probers run, each runs at most portConcurrency
    probes, and the running probes over all probers number at most
    hostConcurrency * portConcurrency. *)
Theorem active_probes_bounded (hostConcurrency portConcurrency : nat)
    (schedule : list Pool.Action) (k : nat) :
  let s := Pool.run hostConcurrency portConcurrency (take k schedule) in
  (length s <= hostConcurrency)%nat /\
  Forall (fun n => (n <= portConcurrency)%nat) s /\
  (Pool.active_probes s <= hostConcurrency * portConcurrency)%nat.
Proof.
  cbv zeta.
  destruct (run_pool_ok hostConcurrency portConcurrency (take k schedule)) as [Hlen Hall].
  split; [exact Hlen|]. split; [exact Hall|].
  unfold Pool.active_probes. pose proof (sum_list_bound _ _ Hall) as Hsum. nia.
Qed.

(** The bound is reached: with one prober slot and two probe slots, the
    third probe and the second prober have to wait. *)
Example pool_saturates :
  Pool.active_probes
    (Pool.run 1 2 [Pool.StartProber; Pool.StartProbe 0; Pool.StartProbe 0;
                   Pool.StartProbe 0; Pool.StartProber]) = 2%nat.
Proof. reflexivity. Qed.

(** * Further properties of the command layer *)

Lemma set_level_trace g s :
  set_level g s = (Ret tt, mkSt (globals s) (events s ++ level_events g) (deferred s)).
Proof.
  unfold set_level, level_events, level_of.
  destruct (silent g); [|destruct (quiet g); [|destruct (trace g);
    [|destruct (debug g); [|destruct (info g)]]]];
    unfold_M; try reflexivity.
  rewrite app_nil_r. destruct s; reflexivity.
Qed.

Lemma open_log_trace w g s :
  open_log w g log_flags s
  = (Ret (logger_of w g),
     mkSt (globals s) (events s ++ log_events w g) (log_opened w g ++ deferred s)).
Proof.
  unfold open_log, logger_of, log_events, log_opened. destruct (logPath g =? "").
  - rewrite app_nil_r. destruct s; reflexivity.
  - unfold_M. simpl. destruct (os_OpenFile w (logPath g) log_flags 420); simpl.
    + rewrite <- app_assoc. reflexivity.
    + reflexivity.
Qed.

Lemma export_results_trace w log err s :
  let g := globals s in
  let out := output_stream w g (output_flags g) in
  export_results w g log (output_flags g) err s
  = (Ret (if outputPath g =? "" then err
          else os_OpenFile w (outputPath g) (output_flags g) 420),
     mkSt (set_outputFormat (resolved_format (outputFormat g) out) g)
       (events s ++ output_events w g log) (output_opened w g ++ deferred s)).
Proof.
  cbv zeta. unfold export_results, output_events, output_opened, output_stream, resolved_format.
  destruct (outputPath (globals s) =? ""); simpl.
  - unfold_M.
    destruct (outputFormat (globals s) =? "auto") eqn:Ea; rewrite export_run; simpl.
    + rewrite outputFormat_set. reflexivity.
    + rewrite set_outputFormat_same. reflexivity.
  - unfold_M. simpl.
    destruct (os_OpenFile w (outputPath (globals s)) (output_flags (globals s)) 420); simpl;
      (destruct (outputFormat (globals s) =? "auto") eqn:Ea; rewrite export_run; simpl;
       [rewrite outputFormat_set | rewrite set_outputFormat_same]);
      rewrite <- !app_assoc; reflexivity.
Qed.

Lemma RunE_body_trace w targets g :
  valid g = true ->
  let log := logger_of w g in
  let a := scanner_args log g in
  let pre := level_events g ++ [EvSetTimeFieldFormat] ++ log_events w g in
  RunE_body w targets (start g) =
    match scan_NewUdpProbeScanner w a with
    | Some _ =>
        (Exit 1,
         mkSt (lowered g)
           (pre ++ [EvNewUdpProbeScanner a;
                    EvLog log FatalLevel "Failed to initialize scanner"])
           (log_opened w g))
    | None =>
        let s1 :=
          mkSt (lowered g)
            (pre ++ [EvNewUdpProbeScanner a; EvLog log InfoLevel "Starting scanner";
                     EvScan targets; EvLog log InfoLevel "Scan complete"; EvLength])
            (log_opened w g) in
        if (0 <? scan_Length w a targets)%Z
        then export_results w (lowered g) log (output_flags g) None s1
        else (Ret None, s1)
    end.
Proof.
  intros Hv log a pre. apply valid_inv in Hv as (Ho & Hl & Hc & Ht).
  pose proof (set_level_trace (lowered g) (start (lowered g))) as E1.
  pose proof (open_log_trace w (lowered g)
                (mkSt (lowered g) (level_events (lowered g) ++ [EvSetTimeFieldFormat]) [])) as E2.
  cbn [start globals events deferred app] in E1, E2.
  unfold RunE_body.
  unfold mbind at 1. unfold M_bind at 1. unfold get_globals at 1. cbn [globals start].
  unfold mbind at 1. unfold M_bind at 1. unfold put_globals at 1. cbn [globals start events deferred].
  unfold mbind at 1. unfold M_bind at 1. unfold get_globals at 1. cbn [globals].
  fold (lowered g).
  replace (outputFormat (lowered g)) with (ToLower (outputFormat g)) by (destruct g; reflexivity).
  replace (logFormat (lowered g)) with (logFormat g) by (destruct g; reflexivity).
  replace (portConcurrency (lowered g)) with (portConcurrency g) by (destruct g; reflexivity).
  replace (hostConcurrency (lowered g)) with (hostConcurrency g) by (destruct g; reflexivity).
  replace (timeoutMs (lowered g)) with (timeoutMs g) by (destruct g; reflexivity).
  rewrite Ho, Hl, Hc, Ht. cbn [negb].
  replace (if outputAppend (lowered g) then Z.lor (Z.lor O_WRONLY O_CREATE) O_APPEND
           else Z.lor O_WRONLY O_CREATE) with (output_flags g) by (destruct g; reflexivity).
  fold log_flags.
  unfold mbind at 1. unfold M_bind at 1. fold (start (lowered g)). rewrite E1.
  unfold mbind at 1. unfold M_bind at 1. unfold emit at 1. cbn [globals events deferred].
  unfold mbind at 1. unfold M_bind at 1. rewrite E2.
  replace (logger_of w (lowered g)) with log by (destruct g; reflexivity).
  replace (scanner_args log (lowered g)) with a by (destruct g; reflexivity).
  replace (level_events (lowered g)) with (level_events g) by (destruct g; reflexivity).
  replace (log_events w (lowered g)) with (log_events w g) by (destruct g; reflexivity).
  replace (log_opened w (lowered g)) with (log_opened w g) by (destruct g; reflexivity).
  unfold_M. cbn [globals events deferred].
  rewrite app_nil_r. subst pre.
  destruct (scan_NewUdpProbeScanner w a); cbn [globals events deferred].
  - rewrite <- !app_assoc. cbn [app]. reflexivity.
  - rewrite <- !app_assoc. cbn [app].
    destruct (0 <? scan_Length w a targets)%Z; reflexivity.
Qed.

(** The whole of a run that passes validation and builds its scanner. *)
Lemma RunE_complete w targets g :
  valid g = true ->
  scan_NewUdpProbeScanner w (scanner_args (logger_of w g) g) = None ->
  RunE w targets (start g)
  = (Ret (RunE_result w targets g),
     mkSt (RunE_globals w targets g) (RunE_trace w targets g) []).
Proof.
  intros Hv Hn. unfold RunE, run_deferred.
  rewrite (RunE_body_trace w targets g Hv), Hn. cbv zeta.
  unfold RunE_result, RunE_globals, RunE_trace, has_results.
  destruct (0 <? scan_Length w (scanner_args (logger_of w g) g) targets)%Z; cbn [andb].
  - match goal with |- context [export_results _ _ _ _ _ ?s1] =>
      pose proof (export_results_trace w (logger_of w g) None s1) as Hex end.
    cbn [globals events deferred] in Hex.
    replace (output_flags (lowered g)) with (output_flags g) in Hex
      by (destruct g; reflexivity).
    rewrite Hex. clear Hex. cbn [globals events deferred].
    replace (outputPath (lowered g)) with (outputPath g) by (destruct g; reflexivity).
    replace (output_stream w (lowered g) (output_flags g))
      with (output_stream w g (output_flags g)) by (destruct g; reflexivity).
    replace (output_opened w (lowered g)) with (output_opened w g)
      by (destruct g; reflexivity).
    replace (outputFormat (lowered g)) with (ToLower (outputFormat g))
      by (destruct g; reflexivity).
    replace (set_outputFormat
               (resolved_format (ToLower (outputFormat g))
                  (output_stream w g (output_flags g))) (lowered g))
      with (set_outputFormat
              (resolved_format (ToLower (outputFormat g))
                 (output_stream w g (output_flags g))) g)
      by (destruct g; reflexivity).
    destruct (outputPath g =? ""); cbn [negb];
      rewrite <- !app_assoc; reflexivity.
  - cbn [globals events deferred app]. rewrite <- !app_assoc. reflexivity.
Qed.

(** A run whose scanner cannot be built, in full. *)
Lemma RunE_fatal_complete w targets g e :
  valid g = true ->
  scan_NewUdpProbeScanner w (scanner_args (logger_of w g) g) = Some e ->
  RunE w targets (start g)
  = (Exit 1,
     mkSt (lowered g)
       (level_events g ++ [EvSetTimeFieldFormat] ++ log_events w g
        ++ [EvNewUdpProbeScanner (scanner_args (logger_of w g) g);
            EvLog (logger_of w g) FatalLevel "Failed to initialize scanner"])
       (log_opened w g)).
Proof.
  intros Hv Hn. unfold RunE, run_deferred.
  rewrite (RunE_body_trace w targets g Hv), Hn. cbv zeta.
  rewrite <- !app_assoc. reflexivity.
Qed.

(** The three ways a run can go. *)
Lemma RunE_cases w targets g :
  (valid g = false /\
   exists e, RunE w targets (start g) = (Ret (Some e), start (lowered g))) \/
  (valid g = true /\
   (exists e, scan_NewUdpProbeScanner w (scanner_args (logger_of w g) g) = Some e) /\
   RunE w targets (start g)
   = (Exit 1,
      mkSt (lowered g)
        (level_events g ++ [EvSetTimeFieldFormat] ++ log_events w g
         ++ [EvNewUdpProbeScanner (scanner_args (logger_of w g) g);
             EvLog (logger_of w g) FatalLevel "Failed to initialize scanner"])
        (log_opened w g))) \/
  (valid g = true /\
   scan_NewUdpProbeScanner w (scanner_args (logger_of w g) g) = None /\
   RunE w targets (start g)
   = (Ret (RunE_result w targets g),
      mkSt (RunE_globals w targets g) (RunE_trace w targets g) [])).
Proof.
  destruct (valid g) eqn:Hv.
  - destruct (scan_NewUdpProbeScanner w (scanner_args (logger_of w g) g)) as [e|] eqn:Hn.
    + right; left. split; [reflexivity|]. split; [eauto|].
      apply (RunE_fatal_complete w targets g e Hv Hn).
    + right; right. split; [reflexivity|]. split; [reflexivity|].
      apply (RunE_complete w targets g Hv Hn).
  - left. split; [reflexivity|]. rewrite (RunE_invalid w targets g Hv). eauto.
Qed.

(** Case analysis on everything a trace depends on. *)
Ltac trace_cases w targets g :=
  unfold RunE_trace, level_events, level_of, log_events, log_opened, output_events,
    output_opened, output_stream, exporter_for;
  replace (outputPath (lowered g)) with (outputPath g) by (destruct g; reflexivity);
  replace (output_flags (lowered g)) with (output_flags g) by (destruct g; reflexivity);
  destruct (has_results w targets g);
  destruct (logPath g =? "") eqn:?;
  try destruct (os_OpenFile w (logPath g) log_flags 420) eqn:?;
  destruct (outputPath g =? "") eqn:?;
  try destruct (os_OpenFile w (outputPath g) (output_flags g) 420) eqn:?;
  destruct (silent g), (quiet g), (trace g), (debug g), (info g);
  repeat case_bool_decide.

(** ** The scanner is built and used once

    X1.  The scanner calls of a run are decided by validation and by the
    constructor: none when a check of lines 125 to 136 fails; the
    constructor alone when it fails; the constructor and then one Scan of
    the given targets otherwise.  Scan is never called without the
    constructor before it, and neither is called twice. *)
Theorem scanner_calls_follow_validation (w : World) (targets : list string) (g : Config) :
  List.filter is_scanner_call (events (snd (RunE w targets (start g))))
  = if valid g
    then EvNewUdpProbeScanner (scanner_args (logger_of w g) g)
         :: match scan_NewUdpProbeScanner w (scanner_args (logger_of w g) g) with
            | None => [EvScan targets]
            | Some _ => []
            end
    else [].
Proof.
  destruct (RunE_cases w targets g) as [[Hv [e ->]] | [(Hv & [e He] & ->) | (Hv & Hn & ->)]];
    rewrite Hv; cbn [snd events].
  - reflexivity.
  - rewrite He. unfold level_events, level_of, log_events.
    destruct (logPath g =? ""); try destruct (os_OpenFile w (logPath g) log_flags 420);
      destruct (silent g), (quiet g), (trace g), (debug g), (info g); reflexivity.
  - rewrite Hn. trace_cases w targets g; reflexivity.
Qed.

Lemma filter_level_events (f : Event -> bool) g :
  (forall l, f (EvSetGlobalLevel l) = false) -> List.filter f (level_events g) = [].
Proof.
  intros Hf. unfold level_events. destruct (level_of g); cbn; rewrite ?Hf; reflexivity.
Qed.

Lemma In_level_events e g : In e (level_events g) -> is_level_call e = true.
Proof.
  unfold level_events. destruct (level_of g); cbn; [|tauto].
  intros [<- | []]. reflexivity.
Qed.

(** Case analysis on what the calls after the level depend on. *)
Ltac io_cases w targets g :=
  unfold log_events, log_opened, output_events, output_opened, output_stream, exporter_for;
  replace (outputPath (lowered g)) with (outputPath g) by (destruct g; reflexivity);
  replace (output_flags (lowered g)) with (output_flags g) by (destruct g; reflexivity);
  destruct (has_results w targets g) eqn:?;
  destruct (logPath g =? "") eqn:?;
  try destruct (os_OpenFile w (logPath g) log_flags 420) eqn:?;
  destruct (outputPath g =? "") eqn:?;
  try destruct (os_OpenFile w (outputPath g) (output_flags g) 420) eqn:?;
  repeat case_bool_decide.

(** ** The log level *)





(** ** Files *)

Lemma In_trace_split w targets g e :
  In e (RunE_trace w targets g) ->
  is_level_call e = true \/
  In e ([EvSetTimeFieldFormat] ++ log_events w g
        ++ [EvNewUdpProbeScanner (scanner_args (logger_of w g) g);
            EvLog (logger_of w g) InfoLevel "Starting scanner";
            EvScan targets; EvLog (logger_of w g) InfoLevel "Scan complete"; EvLength]
        ++ (if has_results w targets g
            then output_events w (lowered g) (logger_of w g) else [])
        ++ map EvClose ((if has_results w targets g then output_opened w g else [])
                        ++ log_opened w g)).
Proof.
  unfold RunE_trace. intros [H | H]%in_app_iff; [left | right; exact H].
  apply (In_level_events e g H).
Qed.

(** X3.  Every file a run opens is opened with permission 0o644 and a
    path that is not empty: the log file with O_WRONLY|O_CREATE|O_APPEND,
    the output file with O_WRONLY|O_CREATE and O_APPEND exactly when
    outputAppend is set.  No file is opened with O_TRUNC, O_EXCL or
    O_RDWR: without append an existing output file is written over from
    its start, not emptied. *)
Theorem files_opened_for_writing (w : World) (targets : list string) (g : Config)
    (path : string) (flags perm : Z) :
  In (EvOpenFile path flags perm) (events (snd (RunE w targets (start g)))) ->
  perm = 420%Z /\
  path <> "" /\
  ((path = logPath g /\ flags = Z.lor (Z.lor O_WRONLY O_CREATE) O_APPEND) \/
   (path = outputPath g /\
    flags = if outputAppend g then Z.lor (Z.lor O_WRONLY O_CREATE) O_APPEND
            else Z.lor O_WRONLY O_CREATE)) /\
  Z.land flags O_TRUNC = 0%Z /\ Z.land flags O_EXCL = 0%Z /\ Z.land flags O_RDWR = 0%Z.
Proof.
  intros Hin.
  assert (Hflags : forall f,
            f = Z.lor (Z.lor O_WRONLY O_CREATE) O_APPEND \/
            f = (if outputAppend g then Z.lor (Z.lor O_WRONLY O_CREATE) O_APPEND
                 else Z.lor O_WRONLY O_CREATE) ->
            Z.land f O_TRUNC = 0%Z /\ Z.land f O_EXCL = 0%Z /\ Z.land f O_RDWR = 0%Z).
  { intros f [-> | ->]; [|destruct (outputAppend g)]; repeat split. }
  assert (Hof : output_flags g
                = if outputAppend g then Z.lor (Z.lor O_WRONLY O_CREATE) O_APPEND
                  else Z.lor O_WRONLY O_CREATE) by reflexivity.
  destruct (RunE_cases w targets g) as [[Hv [e He]] | [(Hv & _ & He) | (Hv & Hn & He)]];
    rewrite He in Hin; cbn [snd events] in Hin.
  - destruct Hin.
  - apply in_app_iff in Hin as [Hin%In_level_events | Hin]; [discriminate|].
    unfold log_events in Hin. destruct (logPath g =? "") eqn:Hlp;
      try destruct (os_OpenFile w (logPath g) log_flags 420);
      cbn [In app] in Hin;
      repeat (destruct Hin as [Hin | Hin]; try discriminate Hin; try contradiction);
      injection Hin as <- <- <-; apply String.eqb_neq in Hlp;
      (split; [reflexivity|]; split; [exact Hlp|]; split; [left; split; reflexivity|]);
      apply Hflags; left; reflexivity.
  - apply In_trace_split in Hin as [Hin | Hin]; [discriminate|].
    revert Hin. io_cases w targets g; intros Hin;
      cbn [In app map] in Hin;
      repeat (destruct Hin as [Hin | Hin]; try discriminate Hin; try contradiction);
      injection Hin as <- <- <-;
      repeat match goal with H : (_ =? "") = false |- _ => apply String.eqb_neq in H end;
      (split; [reflexivity|]; split; [assumption|]);
      first [ split; [left; split; reflexivity | apply Hflags; left; reflexivity]
            | split; [right; split; [reflexivity | exact Hof]
                     | apply Hflags; right; exact Hof] ].
Qed.

(** X3 at work: [-a=false -o out.txt] opens with flags 65. *)
Lemma files_opened_for_writing_witness :
  420%Z = 420%Z /\
  "out.txt" <> "" /\
  (("out.txt" = "" /\ 65%Z = Z.lor (Z.lor O_WRONLY O_CREATE) O_APPEND) \/
   ("out.txt" = "out.txt" /\ 65%Z = Z.lor O_WRONLY O_CREATE)) /\
  Z.land 65 O_TRUNC = 0%Z /\ Z.land 65 O_EXCL = 0%Z /\ Z.land 65 O_RDWR = 0%Z.
Proof.
  refine (files_opened_for_writing results_world ["127.0.0.1"]
            (set_outputAppend false (set_outputPath "out.txt" defaults))
            "out.txt" 65 420 _).
  vm_compute. tauto.
Defined.

Lemma opened_files_app w l1 l2 :
  opened_files w (l1 ++ l2) = opened_files w l1 ++ opened_files w l2.
Proof. apply flat_map_app. Qed.

Lemma opened_files_level w g : opened_files w (level_events g) = [].
Proof. unfold level_events. destruct (level_of g); reflexivity. Qed.

Lemma filter_close_level g : List.filter is_close (level_events g) = [].
Proof. apply filter_level_events. reflexivity. Qed.

Ltac use_open_results :=
  repeat match goal with
         | H : os_OpenFile _ _ _ _ = _ |- _ => rewrite H
         end.

(** X4.  When a run returns after its scan, the files it opened are
    closed by the deferred calls, after every other call, each once and
    in reverse order of opening (output file, then log file); nothing
    else is closed and no deferred call is left. *)
Theorem opened_files_are_closed (w : World) (targets : list string) (g : Config) :
  valid g = true ->
  scan_NewUdpProbeScanner w (scanner_args (logger_of w g) g) = None ->
  exists body,
    events (snd (RunE w targets (start g)))
      = body ++ map EvClose (rev (opened_files w body)) /\
    List.filter is_close body = [] /\
    deferred (snd (RunE w targets (start g))) = [].
Proof.
  intros Hv Hn. rewrite (RunE_complete w targets g Hv Hn). cbn [snd events deferred].
  exists (level_events g ++ [EvSetTimeFieldFormat] ++ log_events w g
          ++ [EvNewUdpProbeScanner (scanner_args (logger_of w g) g);
              EvLog (logger_of w g) InfoLevel "Starting scanner";
              EvScan targets; EvLog (logger_of w g) InfoLevel "Scan complete"; EvLength]
          ++ (if has_results w targets g
              then output_events w (lowered g) (logger_of w g) else [])).
  split; [|split; [|reflexivity]].
  - unfold RunE_trace. rewrite <- !app_assoc. do 4 f_equal.
    rewrite opened_files_app, opened_files_level. cbn [app].
    io_cases w targets g; cbn [app opened_files flat_map]; use_open_results;
      cbn [app rev map]; reflexivity.
  - rewrite List.filter_app, filter_close_level. cbn [app].
    io_cases w targets g; reflexivity.
Qed.

(** X4 at work: [-o out.json -O udpz.log] with results. *)
Lemma opened_files_are_closed_witness :
  exists body,
    events (snd (RunE results_world ["127.0.0.1"]
                   (start (set_logPath "udpz.log" (set_outputPath "out.json" defaults)))))
      = body ++ map EvClose (rev (opened_files results_world body)) /\
    List.filter is_close body = [] /\
    deferred (snd (RunE results_world ["127.0.0.1"]
                     (start (set_logPath "udpz.log" (set_outputPath "out.json" defaults)))))
      = [].
Proof.
  exact (opened_files_are_closed results_world ["127.0.0.1"]
           (set_logPath "udpz.log" (set_outputPath "out.json" defaults))
           eq_refl eq_refl).
Defined.

Example closes_in_reverse_order :
  List.filter is_close
    (events (snd (RunE results_world ["127.0.0.1"]
                    (start (set_logPath "udpz.log" (set_outputPath "out.json" defaults))))))
  = [EvClose (File "out.json"); EvClose (File "udpz.log")].
Proof. reflexivity. Qed.

(** ** The timeout handed to the scanner *)

Lemma wrap_int64_small z : (- 2 ^ 63 <= z < 2 ^ 63)%Z -> wrap_int64 z = z.
Proof.
  intros Hz. unfold wrap_int64. rewrite Z.mod_small by lia. lia.
Qed.

(** X5.  For a timeout of at most 9223372036854 ms the scanner is handed
    exactly that many milliseconds in nanoseconds, a positive
    duration. *)
Theorem timeout_in_nanoseconds (w : World) (targets : list string) (g : Config)
    (a : ScannerArgs) :
  In (EvNewUdpProbeScanner a) (events (snd (RunE w targets (start g)))) ->
  (timeoutMs g <= 9223372036854)%N ->
  arg_timeout a = (Z.of_N (timeoutMs g) * 1000000)%Z /\ (0 < arg_timeout a)%Z.
Proof.
  intros Hin Hms.
  assert (Hv : valid g = true).
  { destruct (valid g) eqn:Hv; [reflexivity|].
    rewrite (RunE_invalid w targets g Hv) in Hin. destruct Hin. }
  apply RunE_scanner_args in Hin. subst a.
  apply valid_inv in Hv as (_ & _ & _ & Ht). apply N.ltb_ge in Ht.
  cbn [scanner_args arg_timeout]. unfold Duration_of_ms, Millisecond.
  rewrite (wrap_int64_small (Z.of_N (timeoutMs g))) by lia.
  rewrite wrap_int64_small by lia. lia.
Qed.

(** X5 at work: [-t 250]. *)
Lemma timeout_in_nanoseconds_witness :
  let a := scanner_args (mkLogger Stderr true) (set_timeoutMs 250 defaults) in
  arg_timeout a = (Z.of_N 250 * 1000000)%Z /\ (0 < arg_timeout a)%Z.
Proof.
  apply (timeout_in_nanoseconds quiet_world ["127.0.0.1"] (set_timeoutMs 250 defaults)).
  - vm_compute. tauto.
  - vm_compute. discriminate.
Defined.

(** X6.  Beyond that range the product of line 199 wraps: a timeout
    between 9223372036855 and 18446744073709 ms passes the check of line
    134 and reaches the scanner as a negative duration, 2^64 ns below the
    intended one. *)
Theorem timeout_wraps_negative (w : World) (targets : list string) (g : Config)
    (a : ScannerArgs) :
  In (EvNewUdpProbeScanner a) (events (snd (RunE w targets (start g)))) ->
  (9223372036855 <= timeoutMs g <= 18446744073709)%N ->
  arg_timeout a = (Z.of_N (timeoutMs g) * 1000000 - 2 ^ 64)%Z /\ (arg_timeout a < 0)%Z.
Proof.
  intros Hin Hms. apply RunE_scanner_args in Hin. subst a.
  cbn [scanner_args arg_timeout]. unfold Duration_of_ms, Millisecond.
  rewrite (wrap_int64_small (Z.of_N (timeoutMs g))) by lia.
  unfold wrap_int64.
  replace (Z.of_N (timeoutMs g) * 1000000 + 2 ^ 63)%Z
    with (Z.of_N (timeoutMs g) * 1000000 - 2 ^ 63 + 1 * 2 ^ 64)%Z by lia.
  rewrite Z.mod_add by lia. rewrite Z.mod_small by lia. lia.
Qed.

(** X6 at work: the first timeout that wraps. *)
Lemma timeout_wraps_negative_witness :
  let a := scanner_args (mkLogger Stderr true) (set_timeoutMs 9223372036855 defaults) in
  arg_timeout a = (Z.of_N 9223372036855 * 1000000 - 2 ^ 64)%Z /\ (arg_timeout a < 0)%Z.
Proof.
  apply (timeout_wraps_negative quiet_world ["127.0.0.1"]
           (set_timeoutMs 9223372036855 defaults)).
  - vm_compute. tauto.
  - vm_compute. split; discriminate.
Defined.

(** ** The logger *)

(** X7.  The logger handed to the scanner writes to the log file exactly
    when a log path is given and the file opens, and to standard error
    otherwise (no log path, or the file cannot be opened).  It uses the
    console writer exactly when the log format is "pretty", or is "auto"
    and the logger writes to standard error: on a log file "auto" means
    JSON. *)
Theorem logger_console_rule (w : World) (targets : list string) (g : Config)
    (a : ScannerArgs) :
  In (EvNewUdpProbeScanner a) (events (snd (RunE w targets (start g)))) ->
  log_writer (arg_log a)
  = (if logPath g =? "" then Stderr
     else match os_OpenFile w (logPath g) (Z.lor (Z.lor O_WRONLY O_CREATE) O_APPEND) 420 with
          | None => File (logPath g)
          | Some _ => Stderr
          end) /\
  (log_console (arg_log a) = true <->
   logFormat g = "pretty" \/ (logFormat g = "auto" /\ log_writer (arg_log a) = Stderr)).
Proof.
  intros Hin. apply RunE_scanner_args in Hin. subst a.
  cbn [scanner_args arg_log]. unfold logger_of, stderr_logger, file_logger.
  fold log_flags.
  destruct (logPath g =? "") eqn:Hlp;
    [|destruct (os_OpenFile w (logPath g) log_flags 420) eqn:Ho];
    cbn [log_writer log_console].
  - split; [reflexivity|].
    rewrite orb_true_iff, !String.eqb_eq. tauto.
  - split; [reflexivity|].
    rewrite orb_true_iff, !String.eqb_eq. tauto.
  - split; [reflexivity|].
    rewrite String.eqb_eq. split; [tauto|]. intros [H | [_ H]]; [exact H | discriminate H].
Qed.

(** X7 at work: [-O udpz.log] with the default format writes JSON to the
    file. *)
Lemma logger_console_rule_witness :
  let a := scanner_args (mkLogger (File "udpz.log") false)
             (set_logPath "udpz.log" defaults) in
  log_writer (arg_log a) = File "udpz.log" /\
  (log_console (arg_log a) = true <->
   logFormat (set_logPath "udpz.log" defaults) = "pretty" \/
   (logFormat (set_logPath "udpz.log" defaults) = "auto" /\ log_writer (arg_log a) = Stderr)).
Proof.
  apply (logger_console_rule quiet_world ["127.0.0.1"] (set_logPath "udpz.log" defaults)).
  vm_compute. tauto.
Defined.

(** X8.  Every log record of a run goes through the logger that is handed
    to the scanner; that includes the record of a log file that could not
    be opened. *)
Theorem one_logger_per_run (w : World) (targets : list string) (g : Config)
    (a : ScannerArgs) (lg : Logger) (lvl : Level) (msg : string) :
  In (EvNewUdpProbeScanner a) (events (snd (RunE w targets (start g)))) ->
  In (EvLog lg lvl msg) (events (snd (RunE w targets (start g)))) ->
  lg = arg_log a.
Proof.
  intros Ha Hl. apply RunE_scanner_args in Ha. subst a. cbn [scanner_args arg_log].
  assert (Hse : logPath g <> "" -> os_OpenFile w (logPath g) log_flags 420 <> None ->
                stderr_logger g = logger_of w g).
  { intros H1 H2. unfold logger_of. apply String.eqb_neq in H1. rewrite H1.
    destruct (os_OpenFile w (logPath g) log_flags 420); [reflexivity | contradiction]. }
  destruct (RunE_cases w targets g) as [[Hv [e He]] | [(Hv & _ & He) | (Hv & Hn & He)]];
    rewrite He in Hl; cbn [snd events] in Hl.
  - destruct Hl.
  - apply in_app_iff in Hl as [Hl%In_level_events | Hl]; [discriminate|].
    unfold log_events in Hl. destruct (logPath g =? "") eqn:Hlp;
      try destruct (os_OpenFile w (logPath g) log_flags 420) eqn:Ho;
      cbn [In app] in Hl;
      repeat (destruct Hl as [Hl | Hl]; try discriminate Hl; try contradiction);
      injection Hl as <- <- <-; try reflexivity.
    apply Hse; [apply String.eqb_neq, Hlp | congruence].
  - apply In_trace_split in Hl as [Hl | Hl]; [discriminate|].
    revert Hl. io_cases w targets g; intros Hl;
      cbn [In app map] in Hl;
      repeat (destruct Hl as [Hl | Hl]; try discriminate Hl; try contradiction);
      injection Hl as <- <- <-; try reflexivity;
      (apply Hse; [apply String.eqb_neq; assumption | congruence]).
Qed.

(** X8 at work: the log file cannot be opened. *)
Lemma one_logger_per_run_witness :
  mkLogger Stderr true
  = arg_log (scanner_args (mkLogger Stderr true) (set_logPath "/proc/udpz.log" defaults)).
Proof.
  apply (one_logger_per_run unwritable_world ["127.0.0.1"]
           (set_logPath "/proc/udpz.log" defaults) _ _ ErrorLevel
           "Could not open log file for writing").
  - vm_compute. tauto.
  - vm_compute. tauto.
Defined.

(** ** A scan without results *)

(** X9.  When the scan leaves no result (Length() <= 0), RunE returns no
    error, no exporter runs, the output file is never opened (so not
    created), and outputFormat keeps its lower-cased value, "auto"
    included. *)
Theorem no_results_no_output (w : World) (targets : list string) (g : Config) :
  valid g = true ->
  scan_NewUdpProbeScanner w (scanner_args (logger_of w g) g) = None ->
  (scan_Length w (scanner_args (logger_of w g) g) targets <= 0)%Z ->
  fst (RunE w targets (start g)) = Ret None /\
  List.filter is_export (events (snd (RunE w targets (start g)))) = [] /\
  List.filter is_open (events (snd (RunE w targets (start g))))
    = (if logPath g =? "" then [] else [EvOpenFile (logPath g) log_flags 420]) /\
  globals (snd (RunE w targets (start g))) = lowered g.
Proof.
  intros Hv Hn Hlen. rewrite (RunE_complete w targets g Hv Hn).
  cbn [fst snd events globals].
  assert (Hr : has_results w targets g = false).
  { unfold has_results. apply Z.ltb_ge. exact Hlen. }
  unfold RunE_result, RunE_globals, RunE_trace. rewrite Hr. cbn [andb].
  split; [reflexivity|].
  rewrite !List.filter_app, !filter_level_events by reflexivity.
  unfold log_events, log_opened.
  destruct (logPath g =? ""); try destruct (os_OpenFile w (logPath g) log_flags 420);
    repeat split.
Qed.

(** X9 at work: [-o out.json] and nothing found. *)
Lemma no_results_no_output_witness :
  List.filter is_open
    (events (snd (RunE quiet_world ["127.0.0.1"] (start (set_outputPath "out.json" defaults)))))
  = [].
Proof.
  apply (no_results_no_output quiet_world ["127.0.0.1"] (set_outputPath "out.json" defaults));
    [reflexivity | reflexivity | vm_compute; discriminate].
Defined.

(** ** The package variables after a run *)

(** X10.  Whatever the run, outputFormat is the only package variable
    RunE changes.  For an ASCII value it ends as the lower-cased value
    given, or as "pretty" or "json" when that value is "auto"; after an
    export it is never "auto". *)
Theorem only_outputFormat_changes (w : World) (targets : list string) (g : Config) :
  let g' := globals (snd (RunE w targets (start g))) in
  g' = set_outputFormat (outputFormat g') g /\
  (is_ascii (outputFormat g) = true ->
   outputFormat g' = ToLower (outputFormat g) \/
   (ToLower (outputFormat g) = "auto" /\
    (outputFormat g' = "pretty" \/ outputFormat g' = "json"))) /\
  (List.filter is_export (events (snd (RunE w targets (start g)))) <> [] ->
   outputFormat g' <> "auto").
Proof.
  cbv zeta.
  destruct (RunE_cases w targets g) as [[Hv [e He]] | [(Hv & _ & He) | (Hv & Hn & He)]];
    rewrite He; cbn [snd globals events start].
  - split; [destruct g; reflexivity|]. split; [intros _; left; destruct g; reflexivity|].
    intros H. contradiction.
  - split; [destruct g; reflexivity|]. split; [intros _; left; destruct g; reflexivity|].
    intros H. exfalso. apply H.
    rewrite List.filter_app, filter_level_events by reflexivity.
    unfold log_events.
    destruct (logPath g =? ""); try destruct (os_OpenFile w (logPath g) log_flags 420);
      reflexivity.
  - unfold RunE_globals, RunE_trace. destruct (has_results w targets g) eqn:Hr.
    + rewrite outputFormat_set. split; [destruct g; reflexivity|].
      unfold resolved_format.
      destruct (ToLower (outputFormat g) =? "auto") eqn:Ea.
      * apply String.eqb_eq in Ea. split.
        -- intros _. right. split; [exact Ea|].
           destruct (output_stream w g (output_flags g)); auto.
        -- intros _. destruct (output_stream w g (output_flags g)); discriminate.
      * apply String.eqb_neq in Ea. split; [intros _; left; reflexivity | intros _; exact Ea].
    + split; [destruct g; reflexivity|]. split; [intros _; left; destruct g; reflexivity|].
      intros H. exfalso. apply H.
      rewrite !List.filter_app, !filter_level_events by reflexivity.
      unfold log_events, log_opened.
      destruct (logPath g =? ""); try destruct (os_OpenFile w (logPath g) log_flags 420);
        reflexivity.
Qed.

(** X10 at work: [-f AUTO] with results on standard output ends as
    "pretty". *)
Lemma only_outputFormat_changes_witness :
  outputFormat (globals (snd (RunE results_world ["127.0.0.1"]
                                (start (set_outputFormat "AUTO" defaults)))))
  <> "auto".
Proof.
  apply (proj2 (proj2 (only_outputFormat_changes results_world ["127.0.0.1"]
                         (set_outputFormat "AUTO" defaults)))).
  vm_compute. discriminate.
Defined.

(** ** Flags by name and by shorthand *)

(** X11.  Each of the fifteen flags [init] registers (the version flag
    and the fourteen bound to package variables), and the help flag cobra
    adds, is found under its name and under its shorthand, and only it:
    giving a value by shorthand parses to the same variables as giving it
    by name. *)
Theorem shorthand_is_name (f : Flag) (v : FlagValue) (gs : list (string * FlagValue))
    (g g' : Config) :
  In f command_flags ->
  find_flag command_flags (flag_name f) = Some f /\
  find_flag command_flags (flag_shorthand f) = Some f /\
  (ParseFlags command_flags ((flag_shorthand f, v) :: gs) g = inr g' <->
   ParseFlags command_flags ((flag_name f, v) :: gs) g = inr g') /\
  length init = 15%nat.
Proof.
  intros Hin.
  assert (H : find_flag command_flags (flag_name f) = Some f /\
              find_flag command_flags (flag_shorthand f) = Some f).
  { revert Hin. unfold command_flags, init. cbn [In app]. intros Hin.
    repeat (destruct Hin as [<- | Hin]; [split; reflexivity|]).
    destruct Hin. }
  destruct H as [Hn Hs]. split; [exact Hn|]. split; [exact Hs|].
  split; [|reflexivity].
  cbn [ParseFlags]. rewrite Hn, Hs.
  destruct (flag_set f v g); [reflexivity|]. split; discriminate.
Qed.

(** X11 at work: [-v] and [--version]. *)
Lemma shorthand_is_name_witness :
  find_flag command_flags "version" = Some version_flag /\
  find_flag command_flags "v" = Some version_flag /\
  (ParseFlags command_flags [("v", VBool true)] defaults = inr defaults <->
   ParseFlags command_flags [("version", VBool true)] defaults = inr defaults) /\
  length init = 15%nat.
Proof.
  refine (shorthand_is_name version_flag (VBool true) [] defaults defaults _).
  unfold command_flags, init. cbn [In app]. left. reflexivity.
Defined.

(** ** The exit status *)



(** ** Validation failures *)

(** X13.  A run that fails a check of lines 125 to 136 on an ASCII output
    format returns the error of the first failing check, in the order
    output format, log format, concurrency, timeout.  The output-format
    error quotes the lower-cased value, the log-format error the value as
    given.  Nothing has been called, and outputFormat is left
    lower-cased. *)
Theorem validation_reports_first_failure (w : World) (targets : list string) (g : Config) :
  valid g = false ->
  is_ascii (outputFormat g) = true ->
  fst (RunE w targets (start g))
  = Ret (Some
      (if negb (supported supportedOutputFormats (ToLower (outputFormat g)))
       then "invalid output format: " +:+ ToLower (outputFormat g)
       else if negb (supported supportedLogFormats (logFormat g))
       then "invalid log format: " +:+ logFormat g
       else if (portConcurrency g =? 0)%N || (hostConcurrency g =? 0)%N
       then "concurrency value must be > 0"
       else "timeout value must be > 0")) /\
  events (snd (RunE w targets (start g))) = [] /\
  globals (snd (RunE w targets (start g))) = set_outputFormat (ToLower (outputFormat g)) g.
Proof.
  intros Hv _. rewrite (RunE_invalid w targets g Hv). cbn [fst snd events globals start].
  replace (portConcurrency g <? 1)%N with (portConcurrency g =? 0)%N
    by (destruct (N.eqb_spec (portConcurrency g) 0), (N.ltb_spec (portConcurrency g) 1); lia).
  replace (hostConcurrency g <? 1)%N with (hostConcurrency g =? 0)%N
    by (destruct (N.eqb_spec (hostConcurrency g) 0), (N.ltb_spec (hostConcurrency g) 1); lia).
  repeat split.
Qed.

(** X13 at work: both formats wrong, the output format is reported. *)
Lemma validation_reports_first_failure_witness :
  fst (RunE quiet_world ["127.0.0.1"]
         (start (set_logFormat "XML" (set_outputFormat "XML" defaults))))
  = Ret (Some "invalid output format: xml").
Proof.
  apply (validation_reports_first_failure quiet_world ["127.0.0.1"]
           (set_logFormat "XML" (set_outputFormat "XML" defaults)));
    reflexivity.
Defined.
